(** * A simulated chiller behind a Modbus register map

    Shallow embedding of [src/index.js]: the holding-register array and the
    coil object, the float32 codec built on Node's [Buffer], the four
    callbacks of [vector], and the body of the periodic task started by
    [startPublishing].

    JavaScript numbers are IEEE-754 binary64 values.  They are modelled by
    [spec_float], the specification of floating-point numbers of the
    Standard Library, at precision 53 and exponent bound 1024; the float32
    values that [Buffer.writeFloatBE] and [Buffer.readFloatBE] go through are
    the same type at precision 24 and exponent bound 128.  NaN carries no
    payload in [spec_float]. *)

From Stdlib Require Import ZArith Lia Bool SpecFloat.
From Stdlib Require PrimFloat FloatOps.
From stdpp Require Import base option list gmap.

Local Open Scope Z_scope.

(** ** JavaScript numbers: IEEE-754 binary64 *)

Abbreviation float := spec_float (only parsing).

(** The numeric literals of the source, read by Rocq's own parser of
    binary64 literals and mapped to their specification. *)
Module Lit.
Import PrimFloat.
#[local] Set Warnings "-inexact-float".

Definition f0 : spec_float := Eval vm_compute in FloatOps.Prim2SF 0%float.
Definition f0_1 : spec_float := Eval vm_compute in FloatOps.Prim2SF 0.1%float.
Definition f2_0 : spec_float := Eval vm_compute in FloatOps.Prim2SF 2.0%float.
Definition f7_0 : spec_float := Eval vm_compute in FloatOps.Prim2SF 7.0%float.
Definition f7_5 : spec_float := Eval vm_compute in FloatOps.Prim2SF 7.5%float.
Definition f12_0 : spec_float := Eval vm_compute in FloatOps.Prim2SF 12.0%float.
Definition f30 : spec_float := Eval vm_compute in FloatOps.Prim2SF 30%float.
Definition f10000 : spec_float :=
  Eval vm_compute in FloatOps.Prim2SF 10000%float.

(** Numbers of the specification's examples that the source does not
    contain. *)
Definition f15_0 : spec_float := Eval vm_compute in FloatOps.Prim2SF 15.0%float.
Definition f35_0 : spec_float := Eval vm_compute in FloatOps.Prim2SF 35.0%float.
Definition fm40_0 : spec_float :=
  Eval vm_compute in FloatOps.Prim2SF (-40.0)%float.
Definition f3_14159 : spec_float :=
  Eval vm_compute in FloatOps.Prim2SF 3.14159%float.

(** Numbers past the float32 range, inside its subnormal range and below
    it. *)
Definition f1e39 : spec_float := Eval vm_compute in FloatOps.Prim2SF 1e39%float.
Definition f1em40 : spec_float :=
  Eval vm_compute in FloatOps.Prim2SF 1e-40%float.
Definition f1em46 : spec_float :=
  Eval vm_compute in FloatOps.Prim2SF 1e-46%float.

End Lit.

Module B64.

Definition prec : Z := 53.
Definition emax : Z := 1024.

Definition add : float -> float -> float := SFadd prec emax.
Definition sub : float -> float -> float := SFsub prec emax.
Definition mul : float -> float -> float := SFmul prec emax.
Definition div : float -> float -> float := SFdiv prec emax.
Definition ltb : float -> float -> bool := SFltb.

(** An integer as a number ([Date.now()] returns one). *)
Definition of_int (z : Z) : float := binary_normalize prec emax z 0 false.

Definition is_finite (x : float) : bool :=
  match x with
  | S754_zero _ | S754_finite _ _ _ => true
  | S754_infinity _ | S754_nan => false
  end.

End B64.

(** ** float32: the format [Buffer.writeFloatBE] and [readFloatBE] use *)

Module B32.

Definition prec : Z := 24.
Definition emax : Z := 128.

Definition valid (x : float) : bool := valid_binary prec emax x.

(** Narrowing of a number to float32, round to nearest, ties to even; a
    magnitude past the float32 range becomes an infinity. *)
Definition of_double (x : float) : float :=
  match x with
  | S754_finite s m e => binary_round prec emax s m e
  | _ => x
  end.

(** Widening of a float32 to a number; it is exact. *)
Definition to_double (x : float) : float :=
  match x with
  | S754_finite s m e => binary_round B64.prec B64.emax s m e
  | _ => x
  end.

Definition sign_bit (s : bool) : Z := if s then 2 ^ 31 else 0.

(** The 32-bit pattern of a float32: sign, 8 bits of biased exponent, 23
    bits of fraction.  NaN is written as the quiet NaN [0x7FC00000]. *)
Definition bits (x : float) : Z :=
  match x with
  | S754_zero s => sign_bit s
  | S754_infinity s => sign_bit s + 255 * 2 ^ 23
  | S754_nan => 255 * 2 ^ 23 + 2 ^ 22
  | S754_finite s m e =>
      if Z.pos m <? 2 ^ 23
      then sign_bit s + Z.pos m
      else sign_bit s + (e + 150) * 2 ^ 23 + (Z.pos m - 2 ^ 23)
  end.

Definition of_bits (b : Z) : float :=
  let s := Z.odd (b / 2 ^ 31) in
  let e := (b / 2 ^ 23) mod 256 in
  let m := b mod 2 ^ 23 in
  if e =? 0 then
    match m with
    | Z.pos p => S754_finite s p (-149)
    | _ => S754_zero s
    end
  else if e =? 255 then
    if m =? 0 then S754_infinity s else S754_nan
  else
    match m + 2 ^ 23 with
    | Z.pos p => S754_finite s p (e - 150)
    | _ => S754_nan
    end.

End B32.

(** ** Node's [Buffer], as far as the codec uses it

    A buffer is its list of bytes.  An access past the end and a
    [writeUInt16BE] of a value outside [0, 65535] throw in Node
    ([ERR_OUT_OF_RANGE]); they are [None] here. *)

Module Buffer.

(** [Buffer.allocUnsafe] leaves the content unspecified.  Both callers
    overwrite all four bytes before they read; see
    [float32ToRegisters_any_buffer] and [registersToFloat32_any_buffer]. *)
Definition allocUnsafe (size : nat) : list Z := replicate size 0.

Definition writeFloatBE (value : float) (offset : nat) (buf : list Z)
  : option (list Z) :=
  if decide (offset + 4 <= length buf)%nat then
    let b := B32.bits (B32.of_double value) in
    Some (<[(offset + 3)%nat := b mod 2 ^ 8]>
          (<[(offset + 2)%nat := (b / 2 ^ 8) mod 2 ^ 8]>
          (<[(offset + 1)%nat := (b / 2 ^ 16) mod 2 ^ 8]>
          (<[offset := (b / 2 ^ 24) mod 2 ^ 8]> buf))))
  else None.

Definition readUInt16BE (offset : nat) (buf : list Z) : option Z :=
  first ← buf !! offset;
  last ← buf !! (offset + 1)%nat;
  Some (first * 2 ^ 8 + last).

Definition writeUInt16BE (value : Z) (offset : nat) (buf : list Z)
  : option (list Z) :=
  if decide (0 <= value <= 65535) then
    if decide (offset + 2 <= length buf)%nat then
      Some (<[(offset + 1)%nat := value mod 2 ^ 8]>
            (<[offset := (value / 2 ^ 8) mod 2 ^ 8]> buf))
    else None
  else None.

Definition readFloatBE (offset : nat) (buf : list Z) : option float :=
  b0 ← buf !! offset;
  b1 ← buf !! (offset + 1)%nat;
  b2 ← buf !! (offset + 2)%nat;
  b3 ← buf !! (offset + 3)%nat;
  Some (B32.to_double
          (B32.of_bits (b0 * 2 ^ 24 + b1 * 2 ^ 16 + b2 * 2 ^ 8 + b3))).

End Buffer.

(** ** The float codec of [src/index.js] *)

(** [float32ToRegisters], run on a given four-byte buffer. *)
Definition float32ToRegisters_on (buffer : list Z) (value : float)
  : option (Z * Z) :=
  buffer ← Buffer.writeFloatBE value 0 buffer;
  r0 ← Buffer.readUInt16BE 0 buffer;
  r1 ← Buffer.readUInt16BE 2 buffer;
  Some (r0, r1).

Definition float32ToRegisters (value : float) : option (Z * Z) :=
  float32ToRegisters_on (Buffer.allocUnsafe 4) value.

(** [registersToFloat32], run on a given four-byte buffer. *)
Definition registersToFloat32_on (buffer : list Z) (reg1 reg2 : Z)
  : option float :=
  buffer ← Buffer.writeUInt16BE reg1 0 buffer;
  buffer ← Buffer.writeUInt16BE reg2 2 buffer;
  Buffer.readFloatBE 0 buffer.

Definition registersToFloat32 (reg1 reg2 : Z) : option float :=
  registersToFloat32_on (Buffer.allocUnsafe 4) reg1 reg2.

(** [setFloat32Value] on the register array.  The source stores by plain
    index assignment; its three call sites pass 0, 2 and 4, inside the
    1000 cells. *)
Definition setFloat32Value (startAddr : nat) (value : float)
    (holdingRegisters : list Z) : option (list Z) :=
  regs ← float32ToRegisters value;
  Some (<[(startAddr + 1)%nat := regs.2]>
        (<[startAddr := regs.1]> holdingRegisters)).

(** [getFloat32Value]: a missing cell is [undefined] in the source, which
    [writeUInt16BE] refuses. *)
Definition getFloat32Value (startAddr : nat) (holdingRegisters : list Z)
  : option float :=
  reg1 ← holdingRegisters !! startAddr;
  reg2 ← holdingRegisters !! (startAddr + 1)%nat;
  registersToFloat32 reg1 reg2.

(** ** The state of the program *)

(** The lines the core writes with [console.log]; a line carries the values
    it prints (the published summary prints them with [toFixed(2)]). *)
Inductive LogLine : Type :=
  | LogRegisterSet (addr value : Z)
  | LogInvalidRegister (addr : Z)
  | LogCoilSet (addr : Z) (on : bool)
  | LogInvalidCoil (addr : Z)
  | LogResetRequested
  | LogPublished (setting entering leaving : float)
  | LogPaused.

Record ChillerData : Type := mkChillerData {
  leavingTempSettings : float;
  enteringTemp : float;
  leavingTemp : float
}.

(** The module-level variables [holdingRegisters], [coils], [chillerData],
    and the console output so far.  [coils] is a JavaScript object used as
    a map from addresses to booleans. *)
Record State : Type := mkState {
  holdingRegisters : list Z;
  coils : gmap Z bool;
  chillerData : ChillerData;
  console : list LogLine
}.

Definition with_registers (regs : list Z) (st : State) : State :=
  mkState regs (coils st) (chillerData st) (console st).

Definition with_coils (c : gmap Z bool) (st : State) : State :=
  mkState (holdingRegisters st) c (chillerData st) (console st).

Definition with_chillerData (d : ChillerData) (st : State) : State :=
  mkState (holdingRegisters st) (coils st) d (console st).

Definition console_log (line : LogLine) (st : State) : State :=
  mkState (holdingRegisters st) (coils st) (chillerData st)
          (console st ++ [line]).

(** The state when the module has been loaded. *)
Definition module_state : State :=
  {| holdingRegisters := replicate 1000 0;
     coils := {[ 300 := true; 301 := false; 302 := true ]};
     chillerData := mkChillerData Lit.f7_0 Lit.f12_0 Lit.f7_5;
     console := [] |}.

(** JavaScript truthiness of what a read of [coils] yields: a boolean, or
    [undefined] for an absent key. *)
Definition truthy (v : option bool) : bool :=
  match v with
  | Some true => true
  | _ => false
  end.

(** ** The callbacks of [vector] *)

Definition getInputRegister (addr : Z) (st : State) : Z * State := (0, st).

Definition getHoldingRegister (addr unitID : Z) (st : State) : Z * State :=
  if decide (0 <= addr /\ addr < Z.of_nat (length (holdingRegisters st)))
  then (default 0 (holdingRegisters st !! Z.to_nat addr), st)
  else (0, st).

Definition setRegister (addr value : Z) (st : State) : State :=
  if decide (0 <= addr /\ addr < Z.of_nat (length (holdingRegisters st)))
  then console_log (LogRegisterSet addr value)
         (with_registers (<[Z.to_nat addr := value]> (holdingRegisters st)) st)
  else console_log (LogInvalidRegister addr) st.

Definition getCoil (addr : Z) (st : State) : bool * State :=
  if decide (300 <= addr /\ addr <= 302)
  then (truthy (coils st !! addr), st)
  else (false, st).

Definition setCoil (addr : Z) (value : bool) (st : State) : State :=
  if decide (300 <= addr /\ addr <= 302)
  then console_log (LogCoilSet addr value)
         (with_coils (<[addr := value]> (coils st)) st)
  else console_log (LogInvalidCoil addr) st.

(** ** Start-up and the periodic task *)

Definition initializeDefaultValues (st : State) : option State :=
  regs ← setFloat32Value 0 (leavingTempSettings (chillerData st))
           (holdingRegisters st);
  regs ← setFloat32Value 2 (enteringTemp (chillerData st)) regs;
  regs ← setFloat32Value 4 (leavingTemp (chillerData st)) regs;
  Some (with_registers regs st).

Section Tick.

(** [Math.sin]: the language leaves its result to the implementation. *)
Variable Math_sin : float -> float.

(** The branch taken when a reset is requested. *)
Definition reset_values (st : State) : State :=
  with_coils (<[301 := false]> (coils st))
    (with_chillerData (mkChillerData Lit.f7_0 Lit.f12_0 Lit.f7_5)
       (console_log LogResetRequested st)).

(** The setting read from registers 0-1 is taken over when it is inside
    (0, 30). *)
Definition adopt_setting (currentSetting : float) (st : State) : State :=
  if B64.ltb Lit.f0 currentSetting && B64.ltb currentSetting Lit.f30
  then with_chillerData
         (mkChillerData currentSetting
            (enteringTemp (chillerData st)) (leavingTemp (chillerData st))) st
  else st.

(** The branch taken when the simulation is enabled; [now] is
    [Date.now()]. *)
Definition simulate (now : Z) (st : State) : State :=
  let d := chillerData st in
  let time := B64.div (B64.of_int now) Lit.f10000 in
  let entering := B64.add Lit.f12_0 (B64.mul (Math_sin time) Lit.f2_0) in
  let diff := B64.sub (leavingTempSettings d) (leavingTemp d) in
  let leaving := B64.add (leavingTemp d) (B64.mul diff Lit.f0_1) in
  with_chillerData (mkChillerData (leavingTempSettings d) entering leaving) st.

(** The branch taken when publishing is enabled. *)
Definition publish (st : State) : option State :=
  let d := chillerData st in
  regs ← setFloat32Value 0 (leavingTempSettings d) (holdingRegisters st);
  regs ← setFloat32Value 2 (enteringTemp d) regs;
  regs ← setFloat32Value 4 (leavingTemp d) regs;
  Some (console_log
          (LogPublished (leavingTempSettings d) (enteringTemp d)
             (leavingTemp d))
          (with_registers regs st)).

(** One run of the callback of [setInterval] in [startPublishing].  [None]
    is an exception that leaves the callback. *)
Definition tick (now : Z) (st : State) : option State :=
  let publishEnabled := coils st !! 300 in
  let resetRequested := coils st !! 301 in
  let simulationEnabled := coils st !! 302 in
  let st := if truthy resetRequested then reset_values st else st in
  currentSetting ← getFloat32Value 0 (holdingRegisters st);
  let st := adopt_setting currentSetting st in
  let st := if truthy simulationEnabled then simulate now st else st in
  if truthy publishEnabled then publish st
  else Some (console_log LogPaused st).

End Tick.

(** The state after the reset check and the reading of the setting, the
    first two stages of [tick]. *)
Definition after_ingestion (st : State) : option State :=
  let st := if truthy (coils st !! 301) then reset_values st else st in
  currentSetting ← getFloat32Value 0 (holdingRegisters st);
  Some (adopt_setting currentSetting st).

(** ** Register cells, and the states the program can be in *)

(** The register values the Modbus server passes to [setRegister], and the
    values [readUInt16BE] returns. *)
Definition uint16 (v : Z) : Prop := 0 <= v <= 65535.

Definition wf_registers (regs : list Z) : Prop :=
  length regs = 1000%nat /\ Forall uint16 regs.

(** The number nearest to [v] among the float32 values, as a number
    ([Math.fround]). *)
Definition fround (v : float) : float := B32.to_double (B32.of_double v).

Section Run.

Variable Math_sin : float -> float.

(** What can happen once the server is up: the timer fires, or the server
    calls one of the callbacks for a client. *)
Inductive step : State -> State -> Prop :=
  | step_tick (now : Z) (st st' : State) :
      tick Math_sin now st = Some st' -> step st st'
  | step_getInputRegister (addr : Z) (st : State) :
      step st (getInputRegister addr st).2
  | step_getHoldingRegister (addr unitID : Z) (st : State) :
      step st (getHoldingRegister addr unitID st).2
  | step_setRegister (addr value : Z) (st : State) :
      uint16 value -> step st (setRegister addr value st)
  | step_getCoil (addr : Z) (st : State) :
      step st (getCoil addr st).2
  | step_setCoil (addr : Z) (value : bool) (st : State) :
      step st (setCoil addr value st).

Inductive reachable : State -> Prop :=
  | reachable_init (st0 : State) :
      initializeDefaultValues module_state = Some st0 -> reachable st0
  | reachable_step (st st' : State) :
      reachable st -> step st st' -> reachable st'.

End Run.

(** The setting lies strictly between 0 and 30. *)
Definition setting_in_range (st : State) : Prop :=
  B64.ltb Lit.f0 (leavingTempSettings (chillerData st))
  && B64.ltb (leavingTempSettings (chillerData st)) Lit.f30 = true.

(** ** States of the examples *)

(** The state in which the timer is started: the defaults are encoded in
    registers 0-5 ([started_state_init] below). *)
Definition started_state : State :=
  with_registers ([16608; 0; 16704; 0; 16624; 0] ++ replicate 994 0)
    module_state.

(** A client has written the float32 pattern of 15.0 ([0x41700000]) to
    registers 0-1. *)
Definition setting_written_state : State :=
  setRegister 1 0 (setRegister 0 16752 started_state).

(** The client has also requested a reset. *)
Definition reset_requested_state : State :=
  setCoil 301 true setting_written_state.

(** A client has switched publishing off. *)
Definition paused_state : State := setCoil 300 false started_state.

(** The time of the examples, in milliseconds since the epoch. *)
Definition example_now : Z := 1700000000000.

Definition f8_25 : float := Eval vm_compute in
  B64.add Lit.f7_5 (B64.mul (B64.sub Lit.f15_0 Lit.f7_5) Lit.f0_1).

(** ** Further notions for the properties *)

Definition is_nan (x : float) : bool :=
  match x with
  | S754_nan => true
  | _ => false
  end.

(** The leaving temperature has reached the setting 7.0. *)
Definition settled_state : State :=
  with_chillerData (mkChillerData Lit.f7_0 Lit.f12_0 Lit.f7_0) started_state.

(** The setting is a float32 value. *)
Definition setting_is_float32 (st : State) : Prop :=
  fround (leavingTempSettings (chillerData st))
  = leavingTempSettings (chillerData st).

(** * Properties *)

(** ** Binary digits and right shifts of [SpecFloat] *)

Module Digits.

Lemma digits2_log2 (m : positive) :
  Z.pos (digits2_pos m) = Z.log2 (Z.pos m) + 1.
Proof.
  induction m as [m IH | m IH |]; cbn [digits2_pos]; [| | reflexivity].
  - rewrite Pos2Z.inj_succ, IH.
    change (Z.pos m~1) with (2 * Z.pos m + 1).
    rewrite Z.log2_succ_double by lia. lia.
  - rewrite Pos2Z.inj_succ, IH.
    change (Z.pos m~0) with (2 * Z.pos m).
    rewrite Z.log2_double by lia. lia.
Qed.

Lemma digits2_bounds (m : positive) :
  2 ^ (Z.pos (digits2_pos m) - 1) <= Z.pos m < 2 ^ Z.pos (digits2_pos m).
Proof.
  rewrite digits2_log2.
  replace (Z.log2 (Z.pos m) + 1 - 1) with (Z.log2 (Z.pos m)) by lia.
  replace (Z.log2 (Z.pos m) + 1) with (Z.succ (Z.log2 (Z.pos m))) by lia.
  apply Z.log2_spec. lia.
Qed.

Lemma digits2_unique (m : positive) (d : Z) :
  2 ^ (d - 1) <= Z.pos m < 2 ^ d -> Z.pos (digits2_pos m) = d.
Proof.
  intros [Hlo Hhi]. rewrite digits2_log2.
  assert (0 < d).
  { destruct (Z_lt_le_dec 0 d) as [|Hd]; [assumption|].
    assert (2 ^ d <= 2 ^ 0) by (apply Z.pow_le_mono_r; lia).
    change (2 ^ 0) with 1 in *. lia. }
  rewrite (Z.log2_unique (Z.pos m) (d - 1)); [lia | lia |].
  replace (Z.succ (d - 1)) with d by lia. split; assumption.
Qed.

Lemma shr_1_m (mrs : shr_record) :
  0 <= shr_m mrs -> shr_m (shr_1 mrs) = shr_m mrs / 2.
Proof.
  destruct mrs as [m r s]; cbn [shr_m]; intros Hm.
  destruct m as [|p|p]; [reflexivity | | lia].
  destruct p as [p|p|]; cbn [shr_1 shr_m].
  - change (Z.pos p~1) with (2 * Z.pos p + 1).
    apply (Z.div_unique _ _ _ 1); lia.
  - change (Z.pos p~0) with (2 * Z.pos p).
    apply (Z.div_unique _ _ _ 0); lia.
  - reflexivity.
Qed.

Lemma iter_shr_1_m (p : positive) : forall mrs : shr_record,
  0 <= shr_m mrs ->
  shr_m (SpecFloat.iter_pos shr_1 p mrs) = shr_m mrs / 2 ^ Z.pos p.
Proof.
  induction p as [p IH | p IH |]; intros mrs Hm; cbn [SpecFloat.iter_pos].
  - assert (H1 : 0 <= shr_m (shr_1 mrs)).
    { rewrite shr_1_m by assumption. apply Z.div_pos; lia. }
    assert (H2 : 0 <= shr_m (SpecFloat.iter_pos shr_1 p (shr_1 mrs))).
    { rewrite IH by assumption. apply Z.div_pos; lia. }
    rewrite IH, IH, shr_1_m by assumption.
    rewrite !Z.div_div by lia.
    f_equal. replace (Z.pos p~1) with (1 + (Z.pos p + Z.pos p)) by lia.
    rewrite !Z.pow_add_r by lia. change (2 ^ 1) with 2. lia.
  - assert (H2 : 0 <= shr_m (SpecFloat.iter_pos shr_1 p mrs)).
    { rewrite IH by assumption. apply Z.div_pos; lia. }
    rewrite IH, IH by assumption.
    rewrite !Z.div_div by lia.
    f_equal. replace (Z.pos p~0) with (Z.pos p + Z.pos p) by lia.
    rewrite !Z.pow_add_r by lia. lia.
  - rewrite shr_1_m by assumption. reflexivity.
Qed.

End Digits.

(** ** Rounding to a format yields a number of that format

    [binary_round prec emax s m e] is the round-to-nearest-even of
    [(-1)^s * m * 2^e] to the format [(prec, emax)].  The Standard Library
    defines it but proves nothing about it; the codec below needs that its
    result is a valid number of the format. *)

Section RoundValid.
Variables prec emax : Z.
Hypothesis prec_gt_0 : 0 < prec.

Local Abbreviation fexp := (SpecFloat.fexp prec emax).
Local Abbreviation emin := (SpecFloat.emin prec emax).

Lemma digits2_lt (q : positive) (k : Z) :
  Z.pos q < 2 ^ k -> Z.pos (digits2_pos q) <= k.
Proof.
  intros Hq. pose proof (Digits.digits2_bounds q) as [Hlo _].
  destruct (Z_le_gt_dec (Z.pos (digits2_pos q)) k) as [|Hgt]; [assumption|].
  assert (2 ^ k <= 2 ^ (Z.pos (digits2_pos q) - 1))
    by (apply Z.pow_le_mono_r; lia).
  lia.
Qed.

Lemma digits2_ge (q : positive) (k : Z) :
  0 <= k -> 2 ^ k <= Z.pos q -> k < Z.pos (digits2_pos q).
Proof.
  intros Hk Hq. pose proof (Digits.digits2_bounds q) as [_ Hhi].
  apply (Z.pow_lt_mono_r_iff 2); lia.
Qed.

Lemma digits2_iter_xO (m d : positive) :
  Z.pos (digits2_pos (Pos.iter xO m d)) = Z.pos (digits2_pos m) + Z.pos d.
Proof.
  induction d as [|d IH] using Pos.peano_ind.
  - cbn [Pos.iter digits2_pos]. lia.
  - rewrite Pos.iter_succ. cbn [digits2_pos]. lia.
Qed.

Lemma shl_align_fexp (mx : positive) (ex : Z) :
  let '(mz, ez) :=
    shl_align mx ex (fexp (Z.pos (digits2_pos mx) + ex)) in
  ez <= fexp (Z.pos (digits2_pos mz) + ez).
Proof.
  unfold shl_align.
  destruct (fexp (Z.pos (digits2_pos mx) + ex) - ex) as [|d|d] eqn:Hd.
  - lia.
  - lia.
  - rewrite digits2_iter_xO.
    replace (Z.pos (digits2_pos mx) + Z.pos d
             + fexp (Z.pos (digits2_pos mx) + ex))
      with (Z.pos (digits2_pos mx) + ex) by lia.
    lia.
Qed.

Lemma round_nearest_even_cases (m : Z) (l : location) :
  round_nearest_even m l = m \/ round_nearest_even m l = m + 1.
Proof.
  destruct l as [|[| |]]; cbn [round_nearest_even]; auto.
  destruct (Z.even m); auto.
Qed.

Lemma div_pow2_lt (m d p k : Z) :
  0 <= p -> 0 <= k -> d - p <= k -> 0 <= m < 2 ^ d -> m / 2 ^ p < 2 ^ k.
Proof.
  intros Hp Hk Hd [Hm0 Hm].
  apply Z.div_lt_upper_bound; [apply Z.pow_pos_nonneg; lia|].
  rewrite <- Z.pow_add_r by lia.
  destruct (Z_le_gt_dec d (p + k)) as [Hle|]; [|lia].
  assert (2 ^ d <= 2 ^ (p + k)) by (apply Z.pow_le_mono_r; lia).
  lia.
Qed.

Lemma div_pow2_ge (m d p : Z) :
  0 <= p -> 0 <= d - 1 - p -> 2 ^ (d - 1) <= m ->
  2 ^ (d - 1 - p) <= m / 2 ^ p.
Proof.
  intros Hp Hd Hm.
  apply Z.div_le_lower_bound; [apply Z.pow_pos_nonneg; lia|].
  rewrite <- Z.pow_add_r by lia.
  replace (p + (d - 1 - p)) with (d - 1) by lia. assumption.
Qed.

Lemma shr_record_of_loc_m (m : Z) (l : location) :
  shr_m (shr_record_of_loc m l) = m.
Proof. destruct l as [|[| |]]; reflexivity. Qed.

Lemma shr_fexp_m (m e : Z) (l : location) :
  0 <= m ->
  shr_m (fst (shr_fexp prec emax m e l))
  = m / 2 ^ Z.max 0 (fexp (Zdigits2 m + e) - e).
Proof.
  intros Hm. unfold shr_fexp, shr.
  destruct (fexp (Zdigits2 m + e) - e) as [|p|p]; cbn [fst].
  - rewrite shr_record_of_loc_m. cbn. now rewrite Z.div_1_r.
  - rewrite Digits.iter_shr_1_m by now rewrite shr_record_of_loc_m.
    rewrite shr_record_of_loc_m. reflexivity.
  - rewrite shr_record_of_loc_m. cbn. now rewrite Z.div_1_r.
Qed.

Lemma shr_fexp_e (m e : Z) (l : location) :
  snd (shr_fexp prec emax m e l)
  = e + Z.max 0 (fexp (Zdigits2 m + e) - e).
Proof.
  unfold shr_fexp, shr.
  destruct (fexp (Zdigits2 m + e) - e) as [|p|p]; cbn [snd]; lia.
Qed.

Lemma binary_round_aux_eq (sx : bool) (mx ex : Z) (lx : location) :
  binary_round_aux prec emax sx mx ex lx
  = let s1 := shr_fexp prec emax mx ex lx in
    let r := round_nearest_even (shr_m (fst s1)) (loc_of_shr_record (fst s1)) in
    let s2 := shr_fexp prec emax r (snd s1) loc_Exact in
    match shr_m (fst s2) with
    | 0 => S754_zero sx
    | Z.pos m =>
        if snd s2 <=? emax - prec then S754_finite sx m (snd s2)
        else S754_infinity sx
    | Z.neg _ => S754_nan
    end.
Proof.
  unfold binary_round_aux. cbv zeta.
  destruct (shr_fexp prec emax mx ex lx) as [mrs' e']. cbn [fst snd].
  destruct (shr_fexp prec emax _ e' loc_Exact) as [mrs'' e'']. reflexivity.
Qed.

Lemma binary_round_aux_valid (sx : bool) (mx : positive) (ex : Z) :
  ex <= fexp (Z.pos (digits2_pos mx) + ex) ->
  valid_binary prec emax
    (binary_round_aux prec emax sx (Z.pos mx) ex loc_Exact) = true.
Proof.
  intros Hex. rewrite binary_round_aux_eq. cbv zeta.
  pose proof (Digits.digits2_bounds mx) as [Hlo Hhi].
  set (s1 := shr_fexp prec emax (Z.pos mx) ex loc_Exact).
  assert (H1m := shr_fexp_m (Z.pos mx) ex loc_Exact ltac:(lia)).
  assert (H1e := shr_fexp_e (Z.pos mx) ex loc_Exact).
  fold s1 in H1m, H1e. cbn [Zdigits2] in H1m, H1e.
  set (d := Z.pos (digits2_pos mx)) in *.
  set (m1 := shr_m (fst s1)) in *. set (e1 := snd s1) in *.
  set (r := round_nearest_even m1 (loc_of_shr_record (fst s1))).
  assert (Hr : r = m1 \/ r = m1 + 1) by apply round_nearest_even_cases.
  assert (Hm1 : 0 <= m1)
    by (rewrite H1m; apply Z.div_pos; [lia|apply Z.pow_pos_nonneg; lia]).
  assert (H2m := shr_fexp_m r e1 loc_Exact ltac:(lia)).
  assert (H2e := shr_fexp_e r e1 loc_Exact).
  set (s2 := shr_fexp prec emax r e1 loc_Exact) in *.
  set (m2 := shr_m (fst s2)) in *. set (e2 := snd s2) in *.
  clearbody m2 e2 r m1 e1. clear s1 s2.
  rewrite Z.max_r in H1m, H1e by lia.
  replace (ex + (fexp (d + ex) - ex)) with (fexp (d + ex)) in H1e by lia.
  destruct r as [|q|q]; [| |lia].
  - (* everything was shifted out and rounded down *)
    rewrite Z.div_0_l in H2m by (apply Z.pow_nonzero; lia).
    rewrite H2m. reflexivity.
  - cbn [Zdigits2] in H2m, H2e.
    pose proof (Digits.digits2_bounds q) as [Hqlo Hqhi].
    set (dq := Z.pos (digits2_pos q)) in *.
    assert (Hfinal : forall n m, n = 0 \/ n = 1 /\ Z.pos q = 2 ^ prec ->
              fexp (dq + e1) - e1 = n -> m2 = Z.pos m ->
              fexp (Z.pos (digits2_pos m) + e2) = e2 ).
    { intros n m Hn Hfn Hm2. rewrite Hfn in H2m, H2e.
      destruct Hn as [->|[-> Hq2]].
      - cbn in H2m. rewrite Z.div_1_r in H2m.
        assert (m = q) by lia. subst m. fold dq.
        replace e2 with e1 by lia. lia.
      - cbn [Z.max] in H2m, H2e. change (0 `max` 1) with 1 in *.
        change (2 ^ 1) with 2 in H2m.
        assert (Hm : Z.pos m = 2 ^ (prec - 1)).
        { rewrite <- Hm2, H2m, Hq2.
          replace prec with (1 + (prec - 1)) at 1 by lia.
          rewrite Z.pow_add_r by lia. change (2 ^ 1) with 2.
          rewrite Z.mul_comm, Z.div_mul; lia. }
        rewrite (Digits.digits2_unique m prec)
          by (rewrite Hm; split; [lia|apply Z.pow_lt_mono_r; lia]).
        assert (dq = prec + 1).
        { apply Digits.digits2_unique. rewrite Hq2.
          replace (prec + 1 - 1) with prec by lia.
          split; [lia|apply Z.pow_lt_mono_r; lia]. }
        unfold SpecFloat.fexp in *. lia. }
    assert (Hm2 : 0 <= m2)
      by (rewrite H2m; apply Z.div_pos; [lia|apply Z.pow_pos_nonneg; lia]).
    assert (Hn : exists n, (n = 0 \/ n = 1 /\ Z.pos q = 2 ^ prec)
                           /\ fexp (dq + e1) - e1 = n).
    { unfold SpecFloat.fexp in H1e, H1m, Hex |- *.
      destruct (Z.max_spec (d + ex - prec) emin) as [[Hlt Hmax]|[Hge Hmax]];
        rewrite Hmax in H1e.
      - (* subnormal range: the exponent is [emin] *)
        exists 0. split; [now left|].
        assert (Hlt' : m1 < 2 ^ (prec - 1)).
        { rewrite H1m. apply (div_pow2_lt _ d); lia. }
        assert (Hdq : dq <= prec).
        { destruct (Z.eq_dec (Z.pos q) (2 ^ (prec - 1))) as [Heq|Hne].
          - unfold dq. rewrite (Digits.digits2_unique q prec); [lia|].
            rewrite Heq; split; [lia|]. apply Z.pow_lt_mono_r; lia.
          - enough (dq <= prec - 1) by lia. apply digits2_lt. lia. }
        unfold SpecFloat.fexp. lia.
      - (* normal range: exactly [prec] digits survive the shift *)
        rewrite Hmax in H1m.
        replace (d + ex - prec - ex) with (d - prec) in H1m by lia.
        assert (Hlt' : m1 < 2 ^ prec).
        { rewrite H1m. apply (div_pow2_lt _ d); lia. }
        assert (Hge' : 2 ^ (prec - 1) <= m1).
        { rewrite H1m. replace (prec - 1) with (d - 1 - (d - prec)) by lia.
          apply div_pow2_ge; lia. }
        destruct (Z_lt_le_dec (Z.pos q) (2 ^ prec)) as [Hqp|Hqp].
        + exists 0. split; [now left|].
          assert (Hdq : dq = prec) by (apply Digits.digits2_unique; lia).
          unfold SpecFloat.fexp. lia.
        + exists 1. assert (Hq2 : Z.pos q = 2 ^ prec) by lia.
          split; [now right|].
          assert (Hdq : dq = prec + 1).
          { apply Digits.digits2_unique. rewrite Hq2.
            replace (prec + 1 - 1) with prec by lia.
            split; [lia|apply Z.pow_lt_mono_r; lia]. }
          unfold SpecFloat.fexp. lia. }
    destruct Hn as (n & Hn & Hfn).
    destruct m2 as [|m|m]; [reflexivity| |lia].
    destruct (e2 <=? emax - prec) eqn:Hb; [|reflexivity].
    cbn [valid_binary]. unfold bounded, canonical_mantissa.
    rewrite Hb, andb_true_r. apply Z.eqb_eq. now apply (Hfinal n).
Qed.

Lemma binary_round_valid (sx : bool) (mx : positive) (ex : Z) :
  valid_binary prec emax (binary_round prec emax sx mx ex) = true.
Proof.
  unfold binary_round.
  pose proof (shl_align_fexp mx ex) as H.
  destruct (shl_align mx ex _) as [mz ez].
  now apply binary_round_aux_valid.
Qed.

End RoundValid.

(** ** Facts about the float32 format *)

Module B32Facts.
Import B32.

Lemma of_double_valid (x : float) : valid (of_double x) = true.
Proof.
  destruct x as [s|s| |s m e]; try reflexivity.
  apply binary_round_valid. reflexivity.
Qed.

(** A valid finite float32 is subnormal with exponent -149, or normal with
    a 24-bit mantissa and an exponent in [-149, 104]. *)
Lemma valid_finite_inv (s : bool) (m : positive) (e : Z) :
  valid (S754_finite s m e) = true ->
  (Z.pos m < 2 ^ 23 /\ e = -149) \/
  (2 ^ 23 <= Z.pos m < 2 ^ 24 /\ -149 <= e <= 104).
Proof.
  unfold valid. cbn [valid_binary]. unfold bounded, canonical_mantissa.
  rewrite andb_true_iff, Z.eqb_eq, Z.leb_le.
  unfold fexp, SpecFloat.emin, prec, emax. intros [Hc He].
  pose proof (Digits.digits2_bounds m) as [Hlo Hhi].
  set (d := Z.pos (digits2_pos m)) in *.
  destruct (Z_lt_le_dec (Z.pos m) (2 ^ 23)) as [Hm|Hm].
  - left. split; [assumption|].
    assert (d <= 23) by (apply (digits2_lt m 23); assumption). lia.
  - right.
    assert (23 < d) by (apply (digits2_ge m 23); [lia|assumption]).
    assert (d = 24) by lia.
    replace 24 with d by assumption. lia.
Qed.

Lemma bits_range (x : float) : valid x = true -> 0 <= bits x < 2 ^ 32.
Proof.
  destruct x as [[]|[]| |s m e]; cbn [bits sign_bit]; try lia.
  intros [[Hm ->]|[Hm He]]%valid_finite_inv.
  - rewrite (proj2 (Z.ltb_lt _ _) Hm). destruct s; cbn [sign_bit]; lia.
  - rewrite (proj2 (Z.ltb_ge _ _) (proj1 Hm)). destruct s; cbn [sign_bit]; lia.
Qed.

Lemma fields_of_pattern (s : bool) (e m : Z) :
  0 <= e < 256 -> 0 <= m < 2 ^ 23 ->
  let b := sign_bit s + e * 2 ^ 23 + m in
  Z.odd (b / 2 ^ 31) = s /\ (b / 2 ^ 23) mod 256 = e /\ b mod 2 ^ 23 = m.
Proof.
  intros He Hm b.
  assert (Hs : b / 2 ^ 31 = if s then 1 else 0).
  { symmetry. apply (Z.div_unique _ _ _ (e * 2 ^ 23 + m)); [lia|].
    subst b. destruct s; cbn [sign_bit]; lia. }
  assert (Hq : b / 2 ^ 23 = (if s then 256 else 0) + e).
  { symmetry. apply (Z.div_unique _ _ _ m); [lia|].
    subst b. destruct s; cbn [sign_bit]; lia. }
  repeat split.
  - rewrite Hs. now destruct s.
  - rewrite Hq. symmetry.
    apply (Z.mod_unique _ _ (if s then 1 else 0)); [lia|]. destruct s; lia.
  - symmetry. apply (Z.mod_unique _ _ ((if s then 256 else 0) + e)); [lia|].
    subst b. destruct s; cbn [sign_bit]; lia.
Qed.

(** Reading back the pattern of a valid float32 gives the float32. *)
Lemma of_bits_bits (x : float) : valid x = true -> of_bits (bits x) = x.
Proof.
  intros Hx. unfold of_bits.
  assert (Hf : forall s e m, 0 <= e < 256 -> 0 <= m < 2 ^ 23 ->
            bits x = sign_bit s + e * 2 ^ 23 + m ->
            Z.odd (bits x / 2 ^ 31) = s /\ (bits x / 2 ^ 23) mod 256 = e
            /\ bits x mod 2 ^ 23 = m).
  { intros s e m He Hm ->. now apply fields_of_pattern. }
  destruct x as [s|s| |s m e].
  - destruct (Hf s 0 0) as (-> & -> & ->); [lia|lia|cbn; lia|reflexivity].
  - destruct (Hf s 255 0) as (-> & -> & ->); [lia|lia|cbn; lia|reflexivity].
  - destruct (Hf false 255 (2 ^ 22)) as (_ & -> & ->);
      [lia|lia|cbn; lia|reflexivity].
  - apply valid_finite_inv in Hx as [[Hm ->]|[Hm He]].
    + destruct (Hf s 0 (Z.pos m)) as (-> & -> & ->); [lia|lia| |reflexivity].
      cbn [bits]. rewrite (proj2 (Z.ltb_lt _ _) Hm). lia.
    + destruct (Hf s (e + 150) (Z.pos m - 2 ^ 23)) as (-> & -> & ->);
        [lia|lia| |].
      * cbn [bits]. now rewrite (proj2 (Z.ltb_ge _ _) (proj1 Hm)).
      * destruct (e + 150 =? 0) eqn:E0; [apply Z.eqb_eq in E0; lia|].
        destruct (e + 150 =? 255) eqn:E1; [apply Z.eqb_eq in E1; lia|].
        replace (Z.pos m - 2 ^ 23 + 2 ^ 23) with (Z.pos m) by lia.
        f_equal. lia.
Qed.

End B32Facts.

(** ** The codec *)

Lemma halves_of_bytes (b : Z) :
  0 <= b < 2 ^ 32 ->
  (b / 2 ^ 24) mod 2 ^ 8 * 2 ^ 8 + (b / 2 ^ 16) mod 2 ^ 8 = b / 2 ^ 16 /\
  (b / 2 ^ 8) mod 2 ^ 8 * 2 ^ 8 + b mod 2 ^ 8 = b mod 2 ^ 16.
Proof.
  intros Hb.
  change (2 ^ 24) with 16777216. change (2 ^ 16) with 65536.
  change (2 ^ 8) with 256. change (2 ^ 32) with 4294967296 in Hb.
  Z.div_mod_to_equations. lia.
Qed.

Lemma pattern_of_halves (r0 r1 : Z) :
  0 <= r0 <= 65535 -> 0 <= r1 <= 65535 ->
  (r0 / 2 ^ 8) mod 2 ^ 8 * 2 ^ 24 + r0 mod 2 ^ 8 * 2 ^ 16
  + (r1 / 2 ^ 8) mod 2 ^ 8 * 2 ^ 8 + r1 mod 2 ^ 8
  = r0 * 2 ^ 16 + r1.
Proof.
  intros H0 H1.
  change (2 ^ 24) with 16777216. change (2 ^ 16) with 65536.
  change (2 ^ 8) with 256.
  Z.div_mod_to_equations. lia.
Qed.

Lemma float32ToRegisters_on_spec (buffer : list Z) (value : float) :
  length buffer = 4%nat ->
  float32ToRegisters_on buffer value
  = Some (B32.bits (B32.of_double value) / 2 ^ 16,
          B32.bits (B32.of_double value) mod 2 ^ 16).
Proof.
  intros Hlen.
  destruct buffer as [|x0 [|x1 [|x2 [|x3 [|]]]]]; try discriminate Hlen.
  pose proof (B32Facts.bits_range _ (B32Facts.of_double_valid value)) as Hb.
  destruct (halves_of_bytes _ Hb) as [Hhi Hlo].
  unfold float32ToRegisters_on, Buffer.writeFloatBE, Buffer.readUInt16BE.
  set (b := B32.bits _) in *. clearbody b.
  rewrite decide_True by (cbn; lia). cbn. now rewrite Hhi, Hlo.
Qed.

Lemma float32ToRegisters_spec (value : float) :
  float32ToRegisters value
  = Some (B32.bits (B32.of_double value) / 2 ^ 16,
          B32.bits (B32.of_double value) mod 2 ^ 16).
Proof. now apply float32ToRegisters_on_spec. Qed.

(** The content [allocUnsafe] hands out does not matter. *)
Lemma float32ToRegisters_any_buffer (buffer : list Z) (value : float) :
  length buffer = 4%nat ->
  float32ToRegisters_on buffer value = float32ToRegisters value.
Proof.
  intros Hlen.
  now rewrite float32ToRegisters_spec, float32ToRegisters_on_spec.
Qed.

Lemma registersToFloat32_on_spec (buffer : list Z) (reg1 reg2 : Z) :
  length buffer = 4%nat -> uint16 reg1 -> uint16 reg2 ->
  registersToFloat32_on buffer reg1 reg2
  = Some (B32.to_double (B32.of_bits (reg1 * 2 ^ 16 + reg2))).
Proof.
  intros Hlen H1 H2.
  destruct buffer as [|x0 [|x1 [|x2 [|x3 [|]]]]]; try discriminate Hlen.
  unfold registersToFloat32_on, Buffer.writeUInt16BE, Buffer.readFloatBE.
  rewrite (decide_True (P := 0 <= reg1 <= 65535)) by assumption.
  rewrite decide_True by (cbn; lia). cbn.
  rewrite (decide_True (P := 0 <= reg2 <= 65535)) by assumption.
  rewrite decide_True by (cbn; lia). cbn.
  now rewrite pattern_of_halves.
Qed.

Lemma registersToFloat32_spec (reg1 reg2 : Z) :
  uint16 reg1 -> uint16 reg2 ->
  registersToFloat32 reg1 reg2
  = Some (B32.to_double (B32.of_bits (reg1 * 2 ^ 16 + reg2))).
Proof. now apply registersToFloat32_on_spec. Qed.

Lemma registersToFloat32_any_buffer (buffer : list Z) (reg1 reg2 : Z) :
  length buffer = 4%nat ->
  registersToFloat32_on buffer reg1 reg2 = registersToFloat32 reg1 reg2.
Proof.
  intros Hlen.
  destruct buffer as [|x0 [|x1 [|x2 [|x3 [|]]]]]; try discriminate Hlen.
  unfold registersToFloat32, registersToFloat32_on, Buffer.writeUInt16BE.
  destruct (decide (0 <= reg1 <= 65535)); [|reflexivity].
  rewrite !decide_True by (cbn; lia). cbn.
  destruct (decide (0 <= reg2 <= 65535)); [|reflexivity].
  rewrite !decide_True by (cbn; lia). reflexivity.
Qed.

(** A cell outside [0, 65535] makes the decoder throw. *)
Lemma registersToFloat32_throws (reg1 reg2 : Z) :
  ~ (uint16 reg1 /\ uint16 reg2) -> registersToFloat32 reg1 reg2 = None.
Proof.
  intros H. unfold registersToFloat32, registersToFloat32_on,
    Buffer.writeUInt16BE.
  destruct (decide (0 <= reg1 <= 65535)) as [H1|]; [|reflexivity].
  rewrite decide_True by (cbn; lia). cbn.
  destruct (decide (0 <= reg2 <= 65535)) as [H2|]; [|reflexivity].
  exfalso. apply H. split; assumption.
Qed.

Lemma halves_uint16 (b : Z) :
  0 <= b < 2 ^ 32 -> uint16 (b / 2 ^ 16) /\ uint16 (b mod 2 ^ 16).
Proof.
  intros Hb. unfold uint16.
  change (2 ^ 16) with 65536. change (2 ^ 32) with 4294967296 in Hb.
  Z.div_mod_to_equations. lia.
Qed.

(** Decoding the two halves of the float32 pattern of [v]. *)
Lemma registersToFloat32_of_halves (v : float) :
  registersToFloat32 (B32.bits (B32.of_double v) / 2 ^ 16)
                     (B32.bits (B32.of_double v) mod 2 ^ 16)
  = Some (fround v).
Proof.
  pose proof (B32Facts.of_double_valid v) as Hv.
  pose proof (B32Facts.bits_range _ Hv) as Hb.
  destruct (halves_uint16 _ Hb) as [Hhi Hlo].
  rewrite registersToFloat32_spec by assumption.
  unfold fround. do 2 f_equal.
  rewrite Z.mul_comm, <- Z.div_mod by lia.
  now apply B32Facts.of_bits_bits.
Qed.

(** C2.  For every finite number [v], decoding the two register cells that
    encoding [v] produces returns exactly [v] narrowed to float32
    precision. *)
Theorem C2_codec_round_trip (v : float) :
  B64.is_finite v = true ->
  (float32ToRegisters v ≫= λ regs, registersToFloat32 regs.1 regs.2)
  = Some (fround v).
Proof.
  intros _. rewrite float32ToRegisters_spec. cbn [mbind option_bind fst snd].
  apply registersToFloat32_of_halves.
Qed.

Lemma C2_codec_round_trip_witness :
  B64.is_finite Lit.f3_14159 = true /\
  (float32ToRegisters Lit.f3_14159 ≫= λ regs, registersToFloat32 regs.1 regs.2)
  = Some (fround Lit.f3_14159).
Proof.
  split; [reflexivity|]. apply (C2_codec_round_trip Lit.f3_14159). reflexivity.
Defined.

(** The values the specification names: each is encoded to the cells of its
    float32 pattern and decoded to itself narrowed; the first four are
    float32 values already, 3.14159 is not. *)
Example round_trip_named_values :
  map (λ v, float32ToRegisters v ≫= λ regs, registersToFloat32 regs.1 regs.2)
      [Lit.f0; Lit.f7_0; Lit.f12_0; Lit.fm40_0; Lit.f3_14159]
  = [Some Lit.f0; Some Lit.f7_0; Some Lit.f12_0; Some Lit.fm40_0;
     Some (fround Lit.f3_14159)]
  /\ map float32ToRegisters
       [Lit.f0; Lit.f7_0; Lit.f12_0; Lit.fm40_0; Lit.f3_14159]
     = [Some (0, 0); Some (16608, 0); Some (16704, 0); Some (49696, 0);
        Some (16457, 4048)]
  /\ SFeqb (fround Lit.f3_14159) Lit.f3_14159 = false.
Proof. vm_compute. repeat split. Qed.

(** Narrowing at the edges of float32: 1e39 becomes +infinity
    ([0x7F800000]), 1e-40 a subnormal ([0x000116C2]), 1e-46 zero. *)
Example narrowing_at_the_edges :
  map float32ToRegisters [Lit.f1e39; Lit.f1em40; Lit.f1em46]
  = [Some (32640, 0); Some (1, 5826); Some (0, 0)]
  /\ map fround [Lit.f1e39; Lit.f1em46]
     = [S754_infinity false; S754_zero false].
Proof. vm_compute. split; reflexivity. Qed.

(** ** The register store *)

(** C3, as stated, fails: an invalid read is rejected but nothing is
    logged.  Reading register 1000 and coil 303 in the start state returns
    0 and [false] and leaves the console empty. *)
Lemma C3_invalid_read_is_not_logged :
  (getHoldingRegister 1000 1 module_state).1 = 0
  /\ console (getHoldingRegister 1000 1 module_state).2 = []
  /\ (getCoil 303 module_state).1 = false
  /\ console (getCoil 303 module_state).2 = [].
Proof. repeat split. Qed.

(** C3, amended.  With the 1000 register cells in place: a register read
    outside [0, 1000) returns 0 and a coil read outside {300, 301, 302}
    returns [false], both leaving the whole state, console included, as it
    was; a write outside the range leaves registers and coils as they were
    and logs one line that marks the address invalid; a register read in
    range returns the stored cell, a coil read in range the stored
    boolean, and a write in range stores the value, which the next read
    returns. *)
Theorem C3_address_validity (st : State) (addr unitID value : Z) (b : bool) :
  length (holdingRegisters st) = 1000%nat ->
  (~ (0 <= addr < 1000) ->
     getHoldingRegister addr unitID st = (0, st)
     /\ setRegister addr value st
        = mkState (holdingRegisters st) (coils st) (chillerData st)
                  (console st ++ [LogInvalidRegister addr]))
  /\ (~ (300 <= addr <= 302) ->
     getCoil addr st = (false, st)
     /\ setCoil addr b st
        = mkState (holdingRegisters st) (coils st) (chillerData st)
                  (console st ++ [LogInvalidCoil addr]))
  /\ (0 <= addr < 1000 ->
     (exists cell, holdingRegisters st !! Z.to_nat addr = Some cell
                   /\ getHoldingRegister addr unitID st = (cell, st))
     /\ setRegister addr value st
        = mkState (<[Z.to_nat addr := value]> (holdingRegisters st))
                  (coils st) (chillerData st)
                  (console st ++ [LogRegisterSet addr value])
     /\ (getHoldingRegister addr unitID (setRegister addr value st)).1 = value)
  /\ (300 <= addr <= 302 ->
     getCoil addr st = (truthy (coils st !! addr), st)
     /\ setCoil addr b st
        = mkState (holdingRegisters st) (<[addr := b]> (coils st))
                  (chillerData st) (console st ++ [LogCoilSet addr b])
     /\ (getCoil addr (setCoil addr b st)).1 = b).
Proof.
  intros Hlen.
  unfold getHoldingRegister, setRegister, getCoil, setCoil. rewrite Hlen.
  change (Z.of_nat 1000) with 1000.
  repeat split.
  - rewrite decide_False by lia. reflexivity.
  - rewrite decide_False by lia. reflexivity.
  - rewrite decide_False by lia. reflexivity.
  - rewrite decide_False by lia. reflexivity.
  - destruct (lookup_lt_is_Some_2 (holdingRegisters st) (Z.to_nat addr))
      as [cell Hcell]; [rewrite Hlen; lia|].
    exists cell. split; [assumption|].
    rewrite decide_True by lia. now rewrite Hcell.
  - rewrite decide_True by lia. reflexivity.
  - rewrite (decide_True (P := 0 <= addr < 1000)) by lia.
    cbn [holdingRegisters console_log with_registers].
    rewrite length_insert, Hlen. change (Z.of_nat 1000) with 1000.
    rewrite decide_True by lia.
    cbn [fst holdingRegisters console_log with_registers].
    rewrite list_lookup_insert_eq by (rewrite Hlen; lia). reflexivity.
  - rewrite decide_True by lia. reflexivity.
  - rewrite decide_True by lia. reflexivity.
  - rewrite !decide_True by lia. cbn [fst coils console_log with_coils].
    rewrite lookup_insert_eq. now destruct b.
Qed.

Lemma C3_address_validity_witness :
  length (holdingRegisters module_state) = 1000%nat
  /\ getHoldingRegister (-1) 1 module_state = (0, module_state)
  /\ holdingRegisters (setRegister 1000 5 module_state)
     = holdingRegisters module_state
  /\ console (setRegister 1000 5 module_state) = [LogInvalidRegister 1000]
  /\ getCoil 299 module_state = (false, module_state)
  /\ coils (setCoil 400 true module_state) = coils module_state
  /\ console (setCoil 400 true module_state) = [LogInvalidCoil 400].
Proof.
  assert (Hlen : length (holdingRegisters module_state) = 1000%nat)
    by reflexivity.
  pose proof (C3_address_validity module_state (-1) 1 5 true Hlen)
    as ([Hr _] & _).
  { lia. }
  pose proof (C3_address_validity module_state 1000 1 5 true Hlen)
    as ([_ Hw] & _).
  { lia. }
  pose proof (C3_address_validity module_state 299 1 5 true Hlen)
    as (_ & [Hc _] & _).
  { lia. }
  pose proof (C3_address_validity module_state 400 1 5 true Hlen)
    as (_ & [_ Hd] & _).
  { lia. }
  repeat split; try assumption; try (rewrite Hw; reflexivity);
    rewrite Hd; reflexivity.
Defined.

(** C10.  A read of an input register returns 0 at every address and in
    every state, and changes nothing. *)
Theorem C10_input_registers_read_zero (addr : Z) (st : State) :
  getInputRegister addr st = (0, st).
Proof. reflexivity. Qed.

(** ** The periodic task *)

Section TickFacts.

Variable Math_sin : float -> float.

Lemma setFloat32Value_spec (startAddr : nat) (value : float) (regs : list Z) :
  setFloat32Value startAddr value regs
  = Some (<[(startAddr + 1)%nat := B32.bits (B32.of_double value) mod 2 ^ 16]>
          (<[startAddr := B32.bits (B32.of_double value) / 2 ^ 16]> regs)).
Proof.
  unfold setFloat32Value. now rewrite float32ToRegisters_spec.
Qed.

Lemma setFloat32Value_wf (startAddr : nat) (value : float) (regs regs' : list Z) :
  wf_registers regs ->
  setFloat32Value startAddr value regs = Some regs' ->
  wf_registers regs'.
Proof.
  intros [Hlen Hall]. rewrite setFloat32Value_spec. intros [= <-].
  pose proof (B32Facts.bits_range _ (B32Facts.of_double_valid value)) as Hb.
  destruct (halves_uint16 _ Hb) as [Hhi Hlo].
  split.
  - now rewrite !length_insert.
  - apply Forall_insert; [apply Forall_insert|]; assumption.
Qed.

Lemma getFloat32Value_wf (regs : list Z) :
  wf_registers regs ->
  exists reg1 reg2,
    regs !! 0%nat = Some reg1 /\ regs !! 1%nat = Some reg2
    /\ getFloat32Value 0 regs
       = Some (B32.to_double (B32.of_bits (reg1 * 2 ^ 16 + reg2))).
Proof.
  intros [Hlen Hall].
  destruct regs as [|reg1 [|reg2 regs]]; try discriminate Hlen.
  exists reg1, reg2. repeat split.
  apply Forall_cons in Hall as [H1 Hall].
  apply Forall_cons in Hall as [H2 _].
  unfold getFloat32Value. cbn. now apply registersToFloat32_spec.
Qed.

Lemma publish_spec (st : State) :
  exists regs,
    publish st
    = Some (mkState regs (coils st) (chillerData st)
              (console st
               ++ [LogPublished (leavingTempSettings (chillerData st))
                     (enteringTemp (chillerData st))
                     (leavingTemp (chillerData st))]))
    /\ (wf_registers (holdingRegisters st) -> wf_registers regs).
Proof.
  unfold publish. cbv zeta.
  destruct (setFloat32Value 0 _ (holdingRegisters st)) as [r1|] eqn:E1;
    [|now rewrite setFloat32Value_spec in E1].
  destruct (setFloat32Value 2 (enteringTemp (chillerData st)) r1)
    as [r2|] eqn:E2; [|now rewrite setFloat32Value_spec in E2].
  destruct (setFloat32Value 4 (leavingTemp (chillerData st)) r2)
    as [r3|] eqn:E3; [|now rewrite setFloat32Value_spec in E3].
  exists r3. cbn. rewrite E2. cbn. rewrite E3. cbn. split; [reflexivity|].
  eauto using setFloat32Value_wf.
Qed.

(** [tick] continues from [after_ingestion] with the simulation and the
    publication. *)
Lemma tick_after_ingestion (now : Z) (st : State) :
  tick Math_sin now st
  = after_ingestion st ≫= λ st2,
      let st3 :=
        if truthy (coils st !! 302) then simulate Math_sin now st2 else st2 in
      if truthy (coils st !! 300) then publish st3
      else Some (console_log LogPaused st3).
Proof.
  unfold tick, after_ingestion. cbv zeta.
  destruct (getFloat32Value 0 _); reflexivity.
Qed.

(** Neither branch of the reset check touches the registers. *)
Lemma after_ingestion_spec (st : State) :
  after_ingestion st
  = getFloat32Value 0 (holdingRegisters st) ≫= λ currentSetting,
      Some (adopt_setting currentSetting
              (if truthy (coils st !! 301) then reset_values st else st)).
Proof.
  unfold after_ingestion. cbv zeta. now destruct (truthy (coils st !! 301)).
Qed.

Lemma adopt_setting_frame (v : float) (st : State) :
  holdingRegisters (adopt_setting v st) = holdingRegisters st
  /\ coils (adopt_setting v st) = coils st
  /\ console (adopt_setting v st) = console st
  /\ enteringTemp (chillerData (adopt_setting v st))
     = enteringTemp (chillerData st)
  /\ leavingTemp (chillerData (adopt_setting v st))
     = leavingTemp (chillerData st).
Proof.
  unfold adopt_setting.
  now destruct (B64.ltb Lit.f0 v && B64.ltb v Lit.f30).
Qed.

(** What a tick that gets past the decoding of registers 0-1 does to the
    process values, the coils and the registers. *)
Lemma tick_spec (now : Z) (st st2 : State) :
  after_ingestion st = Some st2 ->
  exists st',
    tick Math_sin now st = Some st'
    /\ chillerData st'
       = chillerData (if truthy (coils st !! 302)
                      then simulate Math_sin now st2 else st2)
    /\ coils st' = coils st2
    /\ (truthy (coils st !! 300) = false ->
        holdingRegisters st' = holdingRegisters st2)
    /\ (wf_registers (holdingRegisters st2) ->
        wf_registers (holdingRegisters st')).
Proof.
  intros H2. rewrite tick_after_ingestion, H2. cbn [mbind option_bind]. cbv zeta.
  set (st3 := if truthy (coils st !! 302) then _ else _).
  assert (H3 : coils st3 = coils st2
               /\ holdingRegisters st3 = holdingRegisters st2)
    by (subst st3; now destruct (truthy (coils st !! 302))).
  destruct H3 as [H3c H3r].
  destruct (truthy (coils st !! 300)).
  - destruct (publish_spec st3) as (regs & -> & Hwf).
    eexists. split; [reflexivity|]. cbn. rewrite H3r in Hwf.
    split; [reflexivity|split; [assumption|split; [discriminate|assumption]]].
  - eexists. split; [reflexivity|]. cbn. rewrite H3r.
    split; [reflexivity|split; [assumption|split; auto]].
Qed.

End TickFacts.

(** ** Properties of the periodic task *)

Lemma started_state_init :
  initializeDefaultValues module_state = Some started_state.
Proof. vm_compute. reflexivity. Qed.

Lemma started_state_wf : wf_registers (holdingRegisters started_state).
Proof.
  split; [reflexivity|]. unfold started_state. cbn [holdingRegisters with_registers].
  apply Forall_app. split.
  - repeat constructor; unfold uint16; lia.
  - apply Forall_replicate. unfold uint16; lia.
Qed.

Section TickProperties.

Variable Math_sin : float -> float.

(** C1.  A tick that gets past the decoding of registers 0-1 ends with the
    setting of that moment; when coil 302 is true it sets the entering
    temperature to [12.0 + sin(now / 10000) * 2.0] and moves the leaving
    temperature by a tenth of its distance to that setting; when coil 302
    is false it leaves both temperatures as they were after the reset
    check. *)
Theorem C1_simulation_step (now : Z) (st st2 : State) :
  after_ingestion st = Some st2 ->
  exists st',
    tick Math_sin now st = Some st'
    /\ leavingTempSettings (chillerData st')
       = leavingTempSettings (chillerData st2)
    /\ (truthy (coils st !! 302) = true ->
        enteringTemp (chillerData st')
        = B64.add Lit.f12_0
            (B64.mul (Math_sin (B64.div (B64.of_int now) Lit.f10000))
               Lit.f2_0)
        /\ leavingTemp (chillerData st')
           = B64.add (leavingTemp (chillerData st2))
               (B64.mul
                  (B64.sub (leavingTempSettings (chillerData st2))
                     (leavingTemp (chillerData st2)))
                  Lit.f0_1))
    /\ (truthy (coils st !! 302) = false ->
        enteringTemp (chillerData st') = enteringTemp (chillerData st2)
        /\ leavingTemp (chillerData st') = leavingTemp (chillerData st2)).
Proof.
  intros H2. destruct (tick_spec Math_sin now st st2 H2) as (st' & Ht & Hd & _).
  exists st'. split; [assumption|]. rewrite Hd.
  destruct (truthy (coils st !! 302)).
  - split; [reflexivity|]. split; [intros _; split; reflexivity|discriminate].
  - split; [reflexivity|]. split; [discriminate|intros _; split; reflexivity].
Qed.

(** C4.  The float [v] decoded from registers 0-1 becomes the setting when
    [0 < v < 30]; otherwise the setting is the one the reset check left:
    7.0 after a reset, the previous one without. *)
Theorem C4_setting_ingestion (now : Z) (st : State) (v : float) :
  getFloat32Value 0 (holdingRegisters st) = Some v ->
  exists st',
    tick Math_sin now st = Some st'
    /\ leavingTempSettings (chillerData st')
       = if B64.ltb Lit.f0 v && B64.ltb v Lit.f30 then v
         else if truthy (coils st !! 301) then Lit.f7_0
              else leavingTempSettings (chillerData st).
Proof.
  intros Hv.
  assert (H2 := after_ingestion_spec st). rewrite Hv in H2.
  cbn [mbind option_bind] in H2.
  destruct (tick_spec Math_sin now st _ H2) as (st' & Ht & Hd & _).
  exists st'. split; [assumption|]. rewrite Hd.
  assert (Hs : forall s, leavingTempSettings
                 (chillerData (if truthy (coils st !! 302)
                               then simulate Math_sin now s else s))
               = leavingTempSettings (chillerData s))
    by (intros s; now destruct (truthy (coils st !! 302))).
  rewrite Hs. unfold adopt_setting.
  destruct (B64.ltb Lit.f0 v && B64.ltb v Lit.f30); [reflexivity|].
  now destruct (truthy (coils st !! 301)).
Qed.

Lemma tick_Some_inv (now : Z) (st st' : State) :
  tick Math_sin now st = Some st' ->
  exists v, getFloat32Value 0 (holdingRegisters st) = Some v
            /\ after_ingestion st
               = Some (adopt_setting v
                         (if truthy (coils st !! 301)
                          then reset_values st else st)).
Proof.
  rewrite tick_after_ingestion, after_ingestion_spec.
  destruct (getFloat32Value 0 (holdingRegisters st)) as [v|]; [|discriminate].
  intros _. exists v. split; reflexivity.
Qed.

(** A tick does not throw when the register cells are 16-bit values, and
    it leaves them so. *)
Lemma tick_total (now : Z) (st : State) :
  wf_registers (holdingRegisters st) ->
  exists st', tick Math_sin now st = Some st'
              /\ wf_registers (holdingRegisters st').
Proof.
  intros Hwf. destruct (getFloat32Value_wf _ Hwf) as (r1 & r2 & _ & _ & Hv).
  assert (H2 := after_ingestion_spec st). rewrite Hv in H2.
  cbn [mbind option_bind] in H2.
  destruct (tick_spec Math_sin now st _ H2) as (st' & Ht & _ & _ & _ & Hwf').
  exists st'. split; [assumption|]. apply Hwf'.
  destruct (adopt_setting_frame
              (B32.to_double (B32.of_bits (r1 * 2 ^ 16 + r2)))
              (if truthy (coils st !! 301) then reset_values st else st))
    as (-> & _).
  now destruct (truthy (coils st !! 301)).
Qed.

(** C5.  While coil 300 is false a tick writes no register cell: the array
    after the tick is the array before it, whatever happened to the process
    values; and the tick does run when the cells are 16-bit values. *)
Theorem C5_publish_gating (now : Z) (st : State) :
  truthy (coils st !! 300) = false ->
  (forall st', tick Math_sin now st = Some st' ->
               holdingRegisters st' = holdingRegisters st)
  /\ (wf_registers (holdingRegisters st) ->
      exists st', tick Math_sin now st = Some st').
Proof.
  intros H300. split.
  - intros st' Ht. destruct (tick_Some_inv now st st' Ht) as (v & _ & H2).
    destruct (tick_spec Math_sin now st _ H2) as (st'' & Ht' & _ & _ & Hr & _).
    rewrite Ht in Ht'. injection Ht' as <-. rewrite (Hr H300).
    destruct (adopt_setting_frame v
                (if truthy (coils st !! 301) then reset_values st else st))
      as (-> & _).
    now destruct (truthy (coils st !! 301)).
  - intros Hwf. destruct (tick_total now st Hwf) as (st' & Ht & _). eauto.
Qed.

(** C6, amended.  A tick that starts with coil 301 true (and gets past the
    decoding of registers 0-1) ends with coil 301 reading false.  Its
    setting is 7.0 when the float [v] in registers 0-1 is not inside
    (0, 30); with coil 302 false its temperatures are 12.0 and 7.5, with
    coil 302 true they are one simulation step from those defaults. *)
Theorem C6_reset (now : Z) (st : State) (v : float) :
  truthy (coils st !! 301) = true ->
  getFloat32Value 0 (holdingRegisters st) = Some v ->
  exists st',
    tick Math_sin now st = Some st'
    /\ (getCoil 301 st').1 = false
    /\ (B64.ltb Lit.f0 v && B64.ltb v Lit.f30 = false ->
        leavingTempSettings (chillerData st') = Lit.f7_0)
    /\ (truthy (coils st !! 302) = false ->
        enteringTemp (chillerData st') = Lit.f12_0
        /\ leavingTemp (chillerData st') = Lit.f7_5)
    /\ (truthy (coils st !! 302) = true ->
        enteringTemp (chillerData st')
        = B64.add Lit.f12_0
            (B64.mul (Math_sin (B64.div (B64.of_int now) Lit.f10000))
               Lit.f2_0)
        /\ leavingTemp (chillerData st')
           = B64.add Lit.f7_5
               (B64.mul
                  (B64.sub (leavingTempSettings (chillerData st')) Lit.f7_5)
                  Lit.f0_1)).
Proof.
  intros H301 Hv.
  assert (H2 := after_ingestion_spec st). rewrite Hv, H301 in H2.
  cbn [mbind option_bind] in H2.
  destruct (tick_spec Math_sin now st _ H2) as (st' & Ht & Hd & Hc & _).
  exists st'. split; [assumption|]. split.
  { unfold getCoil. rewrite decide_True by lia. cbn [fst]. rewrite Hc.
    destruct (adopt_setting_frame v (reset_values st)) as (_ & -> & _).
    unfold reset_values. cbn [coils with_coils].
    now rewrite lookup_insert_eq. }
  rewrite Hd. unfold adopt_setting.
  destruct (B64.ltb Lit.f0 v && B64.ltb v Lit.f30);
    destruct (truthy (coils st !! 302));
    (split; [intros [=]; reflexivity
            |split; [intros [=]|intros [=]]; split; reflexivity]).
Qed.

(** C7, amended.  Two ticks at the same time, from states with equal
    process values, equal coils and equal cells in registers 0 and 1, end
    with equal process values (or both throw). *)
Theorem C7_determinism (now : Z) (stA stB : State) :
  chillerData stA = chillerData stB ->
  coils stA = coils stB ->
  holdingRegisters stA !! 0%nat = holdingRegisters stB !! 0%nat ->
  holdingRegisters stA !! 1%nat = holdingRegisters stB !! 1%nat ->
  chillerData <$> tick Math_sin now stA = chillerData <$> tick Math_sin now stB.
Proof.
  intros Hd Hc H0 H1.
  assert (Hv : getFloat32Value 0 (holdingRegisters stA)
               = getFloat32Value 0 (holdingRegisters stB))
    by (unfold getFloat32Value; cbn [Nat.add]; now rewrite H0, H1).
  destruct (getFloat32Value 0 (holdingRegisters stB)) as [v|] eqn:HvB.
  - assert (HA := after_ingestion_spec stA). rewrite Hv in HA.
    assert (HB := after_ingestion_spec stB). rewrite HvB in HB.
    cbn [mbind option_bind] in HA, HB.
    destruct (tick_spec Math_sin now stA _ HA) as (stA' & -> & HdA & _).
    destruct (tick_spec Math_sin now stB _ HB) as (stB' & -> & HdB & _).
    cbn [fmap option_fmap option_map]. f_equal. rewrite HdA, HdB, Hc.
    assert (Hs : chillerData
                   (adopt_setting v
                      (if truthy (coils stB !! 301)
                       then reset_values stA else stA))
                 = chillerData
                     (adopt_setting v
                        (if truthy (coils stB !! 301)
                         then reset_values stB else stB))).
    { unfold adopt_setting, reset_values.
      destruct (B64.ltb Lit.f0 v && B64.ltb v Lit.f30);
        destruct (truthy (coils stB !! 301)); cbn; now rewrite ?Hd. }
    destruct (truthy (coils stB !! 302)); [|assumption].
    unfold simulate. cbn. now rewrite Hs.
  - rewrite !tick_after_ingestion, !after_ingestion_spec, Hv, HvB.
    reflexivity.
Qed.

Lemma tick_setting_in_range (now : Z) (st st' : State) :
  setting_in_range st -> tick Math_sin now st = Some st' ->
  setting_in_range st'.
Proof.
  intros Hin Ht. destruct (tick_Some_inv now st st' Ht) as (v & _ & H2).
  destruct (tick_spec Math_sin now st _ H2) as (st'' & Ht' & Hd & _).
  rewrite Ht in Ht'. injection Ht' as <-.
  unfold setting_in_range. rewrite Hd.
  assert (Hs : forall s, leavingTempSettings
                 (chillerData (if truthy (coils st !! 302)
                               then simulate Math_sin now s else s))
               = leavingTempSettings (chillerData s))
    by (intros s; now destruct (truthy (coils st !! 302))).
  rewrite Hs. unfold adopt_setting.
  destruct (B64.ltb Lit.f0 v && B64.ltb v Lit.f30) eqn:Hg; [exact Hg|].
  destruct (truthy (coils st !! 301)); [reflexivity|exact Hin].
Qed.

Lemma step_setting_in_range (st st' : State) :
  setting_in_range st -> step Math_sin st st' -> setting_in_range st'.
Proof.
  intros Hin Hstep.
  destruct Hstep as [now st st' Ht|addr st|addr unitID st|addr value st Hv
                    |addr st|addr value st].
  - eapply tick_setting_in_range; eassumption.
  - exact Hin.
  - unfold getHoldingRegister. now destruct (decide _).
  - unfold setRegister. now destruct (decide _).
  - unfold getCoil. now destruct (decide _).
  - unfold setCoil. now destruct (decide _).
Qed.

Lemma reachable_setting_in_range (st : State) :
  reachable Math_sin st -> setting_in_range st.
Proof.
  induction 1 as [st0 H0|st st' _ IH Hstep].
  - rewrite started_state_init in H0. injection H0 as <-. reflexivity.
  - eapply step_setting_in_range; eassumption.
Qed.

(** C8.  In every state the program reaches, the setting is a positive
    finite number below 30: not NaN, not an infinity, not zero, not 30 or
    more. *)
Theorem C8_setting_in_range (st : State) :
  reachable Math_sin st ->
  B64.ltb Lit.f0 (leavingTempSettings (chillerData st)) = true
  /\ B64.ltb (leavingTempSettings (chillerData st)) Lit.f30 = true
  /\ exists m e, leavingTempSettings (chillerData st) = S754_finite false m e.
Proof.
  intros Hr. apply reachable_setting_in_range in Hr.
  unfold setting_in_range in Hr. apply andb_true_iff in Hr as [H0 H30].
  split; [assumption|]. split; [assumption|].
  destruct (leavingTempSettings (chillerData st)) as [s|[]| |[] m e];
    try discriminate; eauto.
Qed.

(** C9.  A tick leaves coils 300 and 302 as they were; the coil object
    after it is the one before it, or that one with 301 set to false; so no
    coil reads true after a tick that did not read true before it. *)
Theorem C9_tick_coil_frame (now : Z) (st st' : State) :
  tick Math_sin now st = Some st' ->
  coils st' !! 300 = coils st !! 300
  /\ coils st' !! 302 = coils st !! 302
  /\ (coils st' = coils st \/ coils st' = <[301 := false]> (coils st))
  /\ (forall addr, (getCoil addr st').1 = true -> (getCoil addr st).1 = true).
Proof.
  intros Ht. destruct (tick_Some_inv now st st' Ht) as (v & _ & H2).
  destruct (tick_spec Math_sin now st _ H2) as (st'' & Ht' & _ & Hc & _).
  rewrite Ht in Ht'. injection Ht' as <-.
  destruct (adopt_setting_frame v
              (if truthy (coils st !! 301) then reset_values st else st))
    as (_ & Hc' & _).
  rewrite Hc' in Hc. clear Hc' H2.
  destruct (truthy (coils st !! 301)) eqn:H301.
  - unfold reset_values in Hc. cbn [coils with_coils] in Hc. rewrite Hc.
    rewrite !lookup_insert_ne by lia. repeat split; [now right|].
    intros addr. unfold getCoil. destruct (decide _) as [Ha|]; [|discriminate].
    cbn [fst coils]. rewrite Hc.
    destruct (decide (addr = 301)) as [->|Hne].
    + now rewrite lookup_insert_eq.
    + now rewrite lookup_insert_ne by congruence.
  - rewrite Hc. repeat split; [now left|].
    intros addr. unfold getCoil. destruct (decide _); [|discriminate].
    cbn [fst coils]. now rewrite Hc.
Qed.

End TickProperties.

(** ** The properties at concrete states *)

Lemma C1_simulation_step_witness :
  after_ingestion started_state = Some started_state
  /\ forall Math_sin,
       exists st',
         tick Math_sin example_now started_state = Some st'
         /\ leavingTemp (chillerData st')
            = B64.add Lit.f7_5
                (B64.mul (B64.sub Lit.f7_0 Lit.f7_5) Lit.f0_1).
Proof.
  assert (H2 : after_ingestion started_state = Some started_state)
    by (vm_compute; reflexivity).
  split; [exact H2|]. intros Math_sin.
  destruct (C1_simulation_step Math_sin example_now started_state
              started_state H2) as (st' & Ht & _ & Hsim & _).
  exists st'. split; [exact Ht|]. now destruct Hsim as [_ ->].
Defined.

Lemma C4_setting_ingestion_witness :
  getFloat32Value 0 (holdingRegisters setting_written_state) = Some Lit.f15_0
  /\ forall Math_sin,
       exists st',
         tick Math_sin example_now setting_written_state = Some st'
         /\ leavingTempSettings (chillerData st') = Lit.f15_0.
Proof.
  assert (Hv : getFloat32Value 0 (holdingRegisters setting_written_state)
               = Some Lit.f15_0) by (vm_compute; reflexivity).
  split; [exact Hv|]. intros Math_sin.
  destruct (C4_setting_ingestion Math_sin example_now setting_written_state
              Lit.f15_0 Hv) as (st' & Ht & Hs).
  exists st'. split; [exact Ht|]. rewrite Hs. reflexivity.
Defined.

Lemma paused_state_wf : wf_registers (holdingRegisters paused_state).
Proof.
  unfold paused_state, setCoil. rewrite decide_True by lia.
  exact started_state_wf.
Qed.

Lemma C5_publish_gating_witness :
  truthy (coils paused_state !! 300) = false
  /\ forall Math_sin,
       exists st',
         tick Math_sin example_now paused_state = Some st'
         /\ holdingRegisters st' = holdingRegisters paused_state.
Proof.
  assert (H300 : truthy (coils paused_state !! 300) = false)
    by (vm_compute; reflexivity).
  split; [exact H300|]. intros Math_sin.
  destruct (C5_publish_gating Math_sin example_now paused_state H300)
    as [Hsame Hruns].
  destruct (Hruns paused_state_wf) as [st' Ht].
  exists st'. split; [exact Ht|]. now apply Hsame.
Defined.

(** C6, as stated, fails: the tick goes on after the reset.  A client has
    written 15.0 to registers 0-1 and set coil 301; coil 302 is true.  The
    tick ends with the setting 15.0, not 7.0, and the leaving temperature
    8.25, not 7.5, whatever [Math.sin] returns. *)
Lemma C6_reset_is_followed_by_the_other_steps :
  truthy (coils reset_requested_state !! 301) = true
  /\ (forall Math_sin,
        exists st',
          tick Math_sin example_now reset_requested_state = Some st'
          /\ leavingTempSettings (chillerData st') = Lit.f15_0
          /\ leavingTemp (chillerData st') = f8_25)
  /\ SFeqb Lit.f15_0 Lit.f7_0 = false
  /\ SFeqb f8_25 Lit.f7_5 = false.
Proof.
  split; [vm_compute; reflexivity|]. split; [|split; reflexivity].
  intros Math_sin.
  assert (H2 : exists st2,
             after_ingestion reset_requested_state = Some st2
             /\ chillerData st2 = mkChillerData Lit.f15_0 Lit.f12_0 Lit.f7_5)
    by (eexists; split; vm_compute; reflexivity).
  destruct H2 as (st2 & H2 & Hd2).
  destruct (tick_spec Math_sin example_now _ _ H2) as (st' & Ht & Hd & _).
  exists st'. split; [exact Ht|]. rewrite Hd.
  change (truthy (coils reset_requested_state !! 302)) with true.
  unfold simulate. cbn [chillerData with_chillerData leavingTempSettings
                        leavingTemp]. rewrite Hd2.
  split; reflexivity.
Qed.

Lemma C6_reset_witness :
  truthy (coils (setCoil 301 true (setRegister 0 0 paused_state)) !! 301)
  = true
  /\ getFloat32Value 0
       (holdingRegisters (setCoil 301 true (setRegister 0 0 paused_state)))
     = Some (S754_zero false)
  /\ forall Math_sin,
       exists st',
         tick Math_sin example_now
           (setCoil 301 true (setRegister 0 0 paused_state)) = Some st'
         /\ (getCoil 301 st').1 = false
         /\ leavingTempSettings (chillerData st') = Lit.f7_0.
Proof.
  set (st := setCoil 301 true (setRegister 0 0 paused_state)).
  assert (H301 : truthy (coils st !! 301) = true)
    by (vm_compute; reflexivity).
  assert (Hv : getFloat32Value 0 (holdingRegisters st)
               = Some (S754_zero false)) by (vm_compute; reflexivity).
  split; [exact H301|]. split; [exact Hv|]. intros Math_sin.
  destruct (C6_reset Math_sin example_now st _ H301 Hv)
    as (st' & Ht & Hc & Hs & _).
  exists st'. split; [exact Ht|]. split; [exact Hc|]. now apply Hs.
Defined.

(** C7, as stated, fails: the registers do influence the process values.
    The two states have the same process values and the same coils; in one
    registers 0-1 hold 15.0, in the other 7.0.  At the same time the ticks
    end with the settings 15.0 and 7.0. *)
Lemma C7_registers_influence_the_setting :
  chillerData setting_written_state = chillerData started_state
  /\ coils setting_written_state = coils started_state
  /\ (forall Math_sin,
        exists stA' stB',
          tick Math_sin example_now setting_written_state = Some stA'
          /\ tick Math_sin example_now started_state = Some stB'
          /\ leavingTempSettings (chillerData stA') = Lit.f15_0
          /\ leavingTempSettings (chillerData stB') = Lit.f7_0)
  /\ SFeqb Lit.f15_0 Lit.f7_0 = false.
Proof.
  split; [reflexivity|]. split; [reflexivity|]. split; [|reflexivity].
  intros Math_sin.
  assert (HA : exists st2,
             after_ingestion setting_written_state = Some st2
             /\ chillerData st2 = mkChillerData Lit.f15_0 Lit.f12_0 Lit.f7_5)
    by (eexists; split; vm_compute; reflexivity).
  assert (HB : exists st2,
             after_ingestion started_state = Some st2
             /\ chillerData st2 = mkChillerData Lit.f7_0 Lit.f12_0 Lit.f7_5)
    by (eexists; split; vm_compute; reflexivity).
  destruct HA as (sA & HA & HdA). destruct HB as (sB & HB & HdB).
  destruct (tick_spec Math_sin example_now _ _ HA) as (stA' & HtA & HA' & _).
  destruct (tick_spec Math_sin example_now _ _ HB) as (stB' & HtB & HB' & _).
  exists stA', stB'. split; [exact HtA|]. split; [exact HtB|].
  rewrite HA', HB'.
  change (truthy (coils setting_written_state !! 302)) with true.
  change (truthy (coils started_state !! 302)) with true.
  unfold simulate. cbn [chillerData with_chillerData leavingTempSettings].
  rewrite HdA, HdB. split; reflexivity.
Qed.

Lemma C7_determinism_witness :
  chillerData paused_state = chillerData started_state
  /\ coils (setCoil 300 true paused_state) = coils started_state
  /\ forall Math_sin,
       chillerData
         <$> tick Math_sin example_now (setCoil 300 true paused_state)
       = chillerData <$> tick Math_sin example_now started_state.
Proof.
  assert (Hd : chillerData (setCoil 300 true paused_state)
               = chillerData started_state) by reflexivity.
  assert (Hc : coils (setCoil 300 true paused_state) = coils started_state).
  { apply map_eq. intros addr. unfold paused_state, setCoil.
    rewrite !decide_True by lia. cbn [coils console_log with_coils].
    rewrite insert_insert_eq.
    destruct (decide (addr = 300)) as [->|Hne].
    - now rewrite lookup_insert_eq.
    - now rewrite lookup_insert_ne by congruence. }
  split; [reflexivity|]. split; [exact Hc|]. intros Math_sin.
  apply (C7_determinism Math_sin example_now _ _ Hd Hc); reflexivity.
Defined.

Lemma C8_setting_in_range_witness :
  initializeDefaultValues module_state = Some started_state
  /\ forall Math_sin,
       exists st',
         tick Math_sin example_now started_state = Some st'
         /\ B64.ltb Lit.f0 (leavingTempSettings (chillerData st')) = true
         /\ B64.ltb (leavingTempSettings (chillerData st')) Lit.f30 = true.
Proof.
  split; [exact started_state_init|]. intros Math_sin.
  destruct (tick_total Math_sin example_now started_state started_state_wf)
    as (st' & Ht & _).
  assert (Hr : reachable Math_sin st').
  { eapply reachable_step; [|eapply step_tick; exact Ht].
    apply reachable_init. exact started_state_init. }
  destruct (C8_setting_in_range Math_sin st' Hr) as (H0 & H30 & _).
  exists st'. split; [exact Ht|]. split; assumption.
Defined.

Lemma C9_tick_coil_frame_witness :
  wf_registers (holdingRegisters paused_state)
  /\ forall Math_sin,
       exists st',
         tick Math_sin example_now paused_state = Some st'
         /\ coils st' !! 300 = Some false
         /\ coils st' !! 302 = Some true.
Proof.
  split; [exact paused_state_wf|]. intros Math_sin.
  destruct (tick_total Math_sin example_now paused_state paused_state_wf)
    as (st' & Ht & _).
  exists st'. split; [exact Ht|].
  destruct (C9_tick_coil_frame Math_sin _ _ _ Ht) as (-> & -> & _).
  split; reflexivity.
Defined.

(** ** The task never throws *)

Section Reachable.

Variable Math_sin : float -> float.

Lemma step_wf (st st' : State) :
  wf_registers (holdingRegisters st) -> step Math_sin st st' ->
  wf_registers (holdingRegisters st').
Proof.
  intros Hwf Hstep.
  destruct Hstep as [now st st' Ht|addr st|addr unitID st|addr value st Hv
                    |addr st|addr value st].
  - destruct (tick_total Math_sin now st Hwf) as (st'' & Ht' & Hwf').
    rewrite Ht in Ht'. now injection Ht' as <-.
  - exact Hwf.
  - unfold getHoldingRegister. now destruct (decide _).
  - unfold setRegister. destruct (decide _); [|exact Hwf].
    cbn [holdingRegisters console_log with_registers].
    destruct Hwf as [Hlen Hall]. split.
    + now rewrite length_insert.
    + now apply Forall_insert.
  - unfold getCoil. now destruct (decide _).
  - unfold setCoil. now destruct (decide _).
Qed.

Lemma reachable_wf (st : State) :
  reachable Math_sin st -> wf_registers (holdingRegisters st).
Proof.
  induction 1 as [st0 H0|st st' _ IH Hstep].
  - rewrite started_state_init in H0. injection H0 as <-.
    exact started_state_wf.
  - eapply step_wf; eassumption.
Qed.

(** In every state the program reaches, the timer callback runs to its
    end. *)
Lemma reachable_tick_runs (now : Z) (st : State) :
  reachable Math_sin st -> exists st', tick Math_sin now st = Some st'.
Proof.
  intros Hr. destruct (tick_total Math_sin now st (reachable_wf st Hr))
    as (st' & Ht & _). eauto.
Qed.

End Reachable.

(** ** The examples of the specification *)

(** The published temperatures are visible as holding registers only. *)
Example holding_and_input_register_0 :
  (getHoldingRegister 0 1 started_state).1 = 16608
  /\ (getInputRegister 0 started_state).1 = 0.
Proof. split; reflexivity. Qed.

(** Setting filter: with 0.0 or 35.0 in registers 0-1 the setting stays,
    with 15.0 it is taken over. *)
Example setting_filter :
  map (λ cell, leavingTempSettings ∘ chillerData
                 <$> after_ingestion (setRegister 0 cell started_state))
      [0; 16908; 16752]
  = [Some Lit.f7_0; Some Lit.f7_0; Some Lit.f15_0]
  /\ float32ToRegisters Lit.f35_0 = Some (16908, 0).
Proof. vm_compute. split; reflexivity. Qed.

(** One simulation step from 12.0 toward the setting 7.0 gives 11.5. *)
Example simulation_first_step (Math_sin : float -> float) :
  leavingTemp
    (chillerData
       (simulate Math_sin example_now
          (with_chillerData (mkChillerData Lit.f7_0 Lit.f12_0 Lit.f12_0)
             started_state)))
  = B64.div (B64.of_int 23) (B64.of_int 2).
Proof. reflexivity. Qed.

(** ** What a publication leaves in the registers *)

Lemma setFloat32Value_get (startAddr : nat) (value : float)
    (regs regs' : list Z) :
  (startAddr + 1 < length regs)%nat ->
  setFloat32Value startAddr value regs = Some regs' ->
  getFloat32Value startAddr regs' = Some (fround value).
Proof.
  intros Hlen. rewrite setFloat32Value_spec. intros [= <-].
  set (hi := B32.bits (B32.of_double value) / 2 ^ 16).
  set (lo := B32.bits (B32.of_double value) mod 2 ^ 16).
  assert (H0 : <[(startAddr + 1)%nat := lo]> (<[startAddr := hi]> regs)
               !! startAddr = Some hi).
  { rewrite list_lookup_insert_ne by lia.
    apply list_lookup_insert_eq. lia. }
  assert (H1 : <[(startAddr + 1)%nat := lo]> (<[startAddr := hi]> regs)
               !! (startAddr + 1)%nat = Some lo).
  { apply list_lookup_insert_eq. rewrite length_insert. lia. }
  unfold getFloat32Value. rewrite H0. cbn [mbind option_bind].
  rewrite H1. cbn [mbind option_bind]. apply registersToFloat32_of_halves.
Qed.

Lemma setFloat32Value_get_other (startAddr other : nat) (value : float)
    (regs regs' : list Z) :
  (other + 1 < startAddr \/ startAddr + 1 < other)%nat ->
  setFloat32Value startAddr value regs = Some regs' ->
  getFloat32Value other regs' = getFloat32Value other regs.
Proof.
  intros Hne. rewrite setFloat32Value_spec. intros [= <-].
  unfold getFloat32Value.
  rewrite (list_lookup_insert_ne _ (startAddr + 1) other) by lia.
  rewrite (list_lookup_insert_ne _ startAddr other) by lia.
  rewrite (list_lookup_insert_ne _ (startAddr + 1) (other + 1)) by lia.
  rewrite (list_lookup_insert_ne _ startAddr (other + 1)) by lia.
  reflexivity.
Qed.

Lemma setFloat32Value_length (startAddr : nat) (value : float)
    (regs regs' : list Z) :
  setFloat32Value startAddr value regs = Some regs' ->
  length regs' = length regs.
Proof.
  rewrite setFloat32Value_spec. intros [= <-]. now rewrite !length_insert.
Qed.

(** After a publication registers 0-1, 2-3 and 4-5 decode to the three
    process values narrowed to float32. *)
Lemma publish_read_back (st st' : State) :
  (6 <= length (holdingRegisters st))%nat ->
  publish st = Some st' ->
  getFloat32Value 0 (holdingRegisters st')
  = Some (fround (leavingTempSettings (chillerData st)))
  /\ getFloat32Value 2 (holdingRegisters st')
     = Some (fround (enteringTemp (chillerData st)))
  /\ getFloat32Value 4 (holdingRegisters st')
     = Some (fround (leavingTemp (chillerData st))).
Proof.
  intros Hlen. unfold publish. cbv zeta.
  destruct (setFloat32Value 0 _ (holdingRegisters st)) as [r1|] eqn:E1;
    [|discriminate].
  cbn [mbind option_bind].
  destruct (setFloat32Value 2 _ r1) as [r2|] eqn:E2; [|discriminate].
  cbn [mbind option_bind].
  destruct (setFloat32Value 4 _ r2) as [r3|] eqn:E3; [|discriminate].
  cbn [mbind option_bind]. intros [= <-].
  cbn [holdingRegisters console_log with_registers].
  pose proof (setFloat32Value_length _ _ _ _ E1) as L1.
  pose proof (setFloat32Value_length _ _ _ _ E2) as L2.
  repeat split.
  - rewrite (setFloat32Value_get_other 4 0 _ r2 r3 ltac:(lia) E3).
    rewrite (setFloat32Value_get_other 2 0 _ r1 r2 ltac:(lia) E2).
    apply (setFloat32Value_get 0 _ (holdingRegisters st)); [lia|assumption].
  - rewrite (setFloat32Value_get_other 4 2 _ r2 r3 ltac:(lia) E3).
    apply (setFloat32Value_get 2 _ r1); [lia|assumption].
  - apply (setFloat32Value_get 4 _ r2); [lia|assumption].
Qed.

(** ** Rounding a number of the format is exact *)

Section RoundExact.
Variables prec emax : Z.
Hypothesis prec_gt_0 : 0 < prec.

Local Abbreviation fexp := (SpecFloat.fexp prec emax).

(** Shifting out [p] zero bits loses nothing: the round and sticky bits
    stay clear. *)
Lemma iter_shr_1_exact (p : positive) : forall q : Z,
  0 <= q ->
  SpecFloat.iter_pos shr_1 p
    {| shr_m := q * 2 ^ Z.pos p; shr_r := false; shr_s := false |}
  = {| shr_m := q; shr_r := false; shr_s := false |}.
Proof.
  assert (H1 : forall q, 0 <= q ->
            shr_1 {| shr_m := q * 2; shr_r := false; shr_s := false |}
            = {| shr_m := q; shr_r := false; shr_s := false |}).
  { intros [|q|q] Hq; [reflexivity| |lia].
    replace (Z.pos q * 2) with (Z.pos q~0) by lia. reflexivity. }
  induction p as [p IH | p IH |]; intros q Hq; cbn [SpecFloat.iter_pos].
  - replace (q * 2 ^ Z.pos p~1) with (q * 2 ^ Z.pos p * 2 ^ Z.pos p * 2).
    + rewrite H1 by (repeat apply Z.mul_nonneg_nonneg; lia).
      rewrite IH by (apply Z.mul_nonneg_nonneg; lia). now apply IH.
    + replace (Z.pos p~1) with (Z.pos p + Z.pos p + 1) by lia.
      rewrite !Z.pow_add_r by lia. change (2 ^ 1) with 2. lia.
  - replace (q * 2 ^ Z.pos p~0) with (q * 2 ^ Z.pos p * 2 ^ Z.pos p).
    + rewrite IH by (apply Z.mul_nonneg_nonneg; lia). now apply IH.
    + replace (Z.pos p~0) with (Z.pos p + Z.pos p) by lia.
      rewrite !Z.pow_add_r by lia. lia.
  - change (2 ^ 1) with 2. now apply H1.
Qed.

(** A mantissa that already is canonical goes through the rounding
    unchanged. *)
Lemma binary_round_aux_canonical (s : bool) (m : positive) (e : Z) :
  bounded prec emax m e = true ->
  binary_round_aux prec emax s (Z.pos m) e loc_Exact = S754_finite s m e.
Proof.
  unfold bounded, canonical_mantissa.
  rewrite andb_true_iff, Z.eqb_eq. intros [Hc He].
  unfold binary_round_aux, shr_fexp, shr. cbn [Zdigits2 shr_record_of_loc].
  rewrite Hc, Z.sub_diag. cbn [shr_m loc_of_shr_record round_nearest_even].
  cbn [Zdigits2]. rewrite Hc, Z.sub_diag. cbn [shr_m]. now rewrite He.
Qed.

(** A mantissa with too few digits is shifted left to the canonical
    exponent. *)
Lemma binary_round_widen (s : bool) (m m' : positive) (e k : Z) :
  0 <= k -> Z.pos m' = Z.pos m * 2 ^ k ->
  bounded prec emax m' (e - k) = true ->
  binary_round prec emax s m e = S754_finite s m' (e - k).
Proof.
  intros Hk Hm' Hb. pose proof Hb as Hb'.
  unfold bounded, canonical_mantissa in Hb'.
  rewrite andb_true_iff, Z.eqb_eq in Hb'. destruct Hb' as [Hc He].
  pose proof (Digits.digits2_bounds m) as [Hlo Hhi].
  assert (Hd : Z.pos (digits2_pos m') = Z.pos (digits2_pos m) + k).
  { apply Digits.digits2_unique. rewrite Hm'. split.
    - replace (Z.pos (digits2_pos m) + k - 1)
        with (Z.pos (digits2_pos m) - 1 + k) by lia.
      rewrite Z.pow_add_r by lia. apply Z.mul_le_mono_nonneg_r; [|assumption].
      apply Z.pow_nonneg. lia.
    - rewrite Z.pow_add_r by lia. apply Z.mul_lt_mono_pos_r; [|assumption].
      apply Z.pow_pos_nonneg; lia. }
  rewrite Hd in Hc.
  replace (Z.pos (digits2_pos m) + k + (e - k))
    with (Z.pos (digits2_pos m) + e) in Hc by lia.
  unfold binary_round, shl_align. rewrite Hc.
  destruct (e - k - e) as [|d|d] eqn:Hek; [| lia |].
  - assert (k = 0) by lia. subst k.
    assert (m' = m) by lia. subst m'.
    replace (e - 0) with e in * by lia.
    now apply binary_round_aux_canonical.
  - assert (Hkd : k = Z.pos d) by lia.
    assert (Hx : Pos.iter xO m d = m').
    { apply Pos2Z.inj. rewrite Hm', Hkd. clear.
      induction d as [|d IH] using Pos.peano_ind.
      - cbn [Pos.iter]. lia.
      - rewrite Pos.iter_succ, Pos2Z.inj_succ, Z.pow_succ_r by lia.
        change (Z.pos (Pos.iter xO m d)~0) with (2 * Z.pos (Pos.iter xO m d)).
        rewrite IH. lia. }
    rewrite Hx. now apply binary_round_aux_canonical.
Qed.

(** A mantissa whose surplus low bits are zero is shifted right without
    rounding. *)
Lemma binary_round_narrow (s : bool) (m m' : positive) (e k : Z) :
  0 < k -> Z.pos m = Z.pos m' * 2 ^ k ->
  bounded prec emax m' (e + k) = true ->
  binary_round prec emax s m e = S754_finite s m' (e + k).
Proof.
  intros Hk Hm Hb. pose proof Hb as Hb'.
  unfold bounded, canonical_mantissa in Hb'.
  rewrite andb_true_iff, Z.eqb_eq in Hb'. destruct Hb' as [Hc He].
  pose proof (Digits.digits2_bounds m') as [Hlo Hhi].
  assert (Hd : Z.pos (digits2_pos m) = Z.pos (digits2_pos m') + k).
  { apply Digits.digits2_unique. rewrite Hm. split.
    - replace (Z.pos (digits2_pos m') + k - 1)
        with (Z.pos (digits2_pos m') - 1 + k) by lia.
      rewrite Z.pow_add_r by lia. apply Z.mul_le_mono_nonneg_r; [|assumption].
      apply Z.pow_nonneg. lia.
    - rewrite Z.pow_add_r by lia. apply Z.mul_lt_mono_pos_r; [|assumption].
      apply Z.pow_pos_nonneg; lia. }
  assert (Hf : fexp (Z.pos (digits2_pos m) + e) = e + k).
  { rewrite Hd, <- Hc. f_equal. lia. }
  unfold binary_round, shl_align. rewrite Hf.
  destruct (e + k - e) as [|d|d] eqn:Hek; [lia| |lia].
  assert (Hkd : k = Z.pos d) by lia.
  assert (H1 : shr_fexp prec emax (Z.pos m) e loc_Exact
               = ({| shr_m := Z.pos m'; shr_r := false; shr_s := false |},
                  e + k)).
  { unfold shr_fexp, shr. cbn [Zdigits2 shr_record_of_loc].
    rewrite Hf, Hek, Hm, Hkd. now rewrite iter_shr_1_exact by lia. }
  assert (H2 : shr_fexp prec emax (Z.pos m') (e + k) loc_Exact
               = ({| shr_m := Z.pos m'; shr_r := false; shr_s := false |},
                  e + k)).
  { unfold shr_fexp, shr. cbn [Zdigits2 shr_record_of_loc].
    now rewrite Hc, Z.sub_diag. }
  rewrite binary_round_aux_eq. cbv zeta. rewrite H1.
  cbn [fst snd shr_m loc_of_shr_record round_nearest_even].
  rewrite H2. cbn [fst snd shr_m]. now rewrite He.
Qed.

End RoundExact.

(** ** Widening and narrowing, patterns and float32 values *)

Module B32Exact.
Import B32.

(** Narrowing the widened float32 gives the float32 back. *)
Lemma of_double_to_double (x : float) :
  valid x = true -> of_double (to_double x) = x.
Proof.
  destruct x as [s|s| |s m e]; try reflexivity. intros Hx.
  pose proof (Digits.digits2_bounds m) as [Hlo Hhi].
  set (d := Z.pos (digits2_pos m)) in *.
  assert (Hd : 1 <= d <= 24 /\ -149 <= e <= 104).
  { assert (0 < d) by (unfold d; lia).
    destruct (B32Facts.valid_finite_inv _ _ _ Hx) as [[Hm ->]|[Hm He]].
    - assert (d <= 23) by (apply (digits2_lt m 23); assumption). lia.
    - assert (d <= 24) by (apply (digits2_lt m 24); lia). lia. }
  set (k := 53 - d).
  assert (Hpos : 0 < Z.pos m * 2 ^ k)
    by (apply Z.mul_pos_pos; [lia|apply Z.pow_pos_nonneg; lia]).
  destruct (Z.pos m * 2 ^ k) as [|m'|m'] eqn:Hm'; [lia| |lia].
  assert (Hd' : Z.pos (digits2_pos m') = 53).
  { apply Digits.digits2_unique. rewrite <- Hm'. split.
    - replace (53 - 1) with (d - 1 + k) by (unfold k; lia).
      rewrite Z.pow_add_r by (unfold k; lia).
      apply Z.mul_le_mono_nonneg_r; [apply Z.pow_nonneg; lia|assumption].
    - replace 53 with (d + k) by (unfold k; lia).
      rewrite Z.pow_add_r by (unfold k; lia).
      apply Z.mul_lt_mono_pos_r; [apply Z.pow_pos_nonneg; unfold k; lia|].
      assumption. }
  assert (Hw : to_double (S754_finite s m e) = S754_finite s m' (e - k)).
  { cbn [to_double]. apply binary_round_widen; [unfold k; lia|now symmetry|].
    unfold bounded, canonical_mantissa.
    rewrite andb_true_iff, Z.eqb_eq, Z.leb_le, Hd'.
    unfold fexp, emin, B64.prec, B64.emax, k. lia. }
  rewrite Hw. cbn [of_double].
  replace e with (e - k + k) at 2 by lia.
  apply binary_round_narrow; [unfold k; lia|now symmetry|].
  replace (e - k + k) with e by lia. exact Hx.
Qed.

(** Every 32-bit pattern reads as a float32. *)
Lemma of_bits_valid (b : Z) : 0 <= b < 2 ^ 32 -> valid (of_bits b) = true.
Proof.
  intros Hb. unfold of_bits.
  assert (He : 0 <= (b / 2 ^ 23) mod 256 < 256) by (apply Z.mod_pos_bound; lia).
  assert (Hm : 0 <= b mod 2 ^ 23 < 2 ^ 23) by (apply Z.mod_pos_bound; lia).
  set (e := (b / 2 ^ 23) mod 256) in *. set (m := b mod 2 ^ 23) in *.
  destruct (e =? 0) eqn:E0.
  - destruct m as [|p|p] eqn:Hp; try reflexivity.
    unfold valid. cbn [valid_binary]. unfold bounded, canonical_mantissa.
    rewrite andb_true_iff, Z.eqb_eq, Z.leb_le.
    assert (Z.pos (digits2_pos p) <= 23) by (apply (digits2_lt p 23); lia).
    unfold fexp, emin, prec, emax. lia.
  - destruct (e =? 255) eqn:E1; [now destruct (m =? 0)|].
    apply Z.eqb_neq in E0, E1.
    destruct (m + 2 ^ 23) as [|p|p] eqn:Hp; try reflexivity.
    unfold valid. cbn [valid_binary]. unfold bounded, canonical_mantissa.
    rewrite andb_true_iff, Z.eqb_eq, Z.leb_le.
    rewrite (Digits.digits2_unique p 24) by lia.
    unfold fexp, emin, prec, emax. lia.
Qed.

(** A pattern that is not a NaN is the pattern of the float32 it reads
    as. *)
Lemma bits_of_bits (b : Z) :
  0 <= b < 2 ^ 32 -> is_nan (of_bits b) = false -> bits (of_bits b) = b.
Proof.
  intros Hb. unfold of_bits.
  assert (He : 0 <= (b / 2 ^ 23) mod 256 < 256) by (apply Z.mod_pos_bound; lia).
  assert (Hm : 0 <= b mod 2 ^ 23 < 2 ^ 23) by (apply Z.mod_pos_bound; lia).
  assert (Hs : b = sign_bit (Z.odd (b / 2 ^ 31))
                   + (b / 2 ^ 23) mod 256 * 2 ^ 23 + b mod 2 ^ 23).
  { assert (Hq : b / 2 ^ 31 = 0 \/ b / 2 ^ 31 = 1).
    { change (2 ^ 31) with 2147483648. change (2 ^ 32) with 4294967296 in Hb.
      Z.div_mod_to_equations. lia. }
    destruct Hq as [Hq|Hq]; rewrite Hq; cbn [Z.odd sign_bit];
      change (2 ^ 31) with 2147483648 in *; change (2 ^ 23) with 8388608 in *;
      change (2 ^ 32) with 4294967296 in *;
      Z.div_mod_to_equations; lia. }
  set (s := Z.odd (b / 2 ^ 31)) in *.
  set (e := (b / 2 ^ 23) mod 256) in *. set (m := b mod 2 ^ 23) in *.
  destruct (e =? 0) eqn:E0.
  - apply Z.eqb_eq in E0. destruct m as [|p|p] eqn:Hp; intros _.
    + cbn [bits]. lia.
    + cbn [bits]. rewrite (proj2 (Z.ltb_lt _ _)) by lia. lia.
    + lia.
  - destruct (e =? 255) eqn:E1.
    + apply Z.eqb_eq in E1. destruct (m =? 0) eqn:M0; [|discriminate].
      apply Z.eqb_eq in M0. intros _. cbn [bits]. lia.
    + apply Z.eqb_neq in E0, E1.
      destruct (m + 2 ^ 23) as [|p|p] eqn:Hp; try discriminate. intros _.
      cbn [bits]. rewrite (proj2 (Z.ltb_ge _ _)) by lia. lia.
Qed.

End B32Exact.

(** ** More about the codec *)

Lemma registersToFloat32_Some_inv (reg1 reg2 : Z) (v : float) :
  registersToFloat32 reg1 reg2 = Some v ->
  uint16 reg1 /\ uint16 reg2
  /\ v = B32.to_double (B32.of_bits (reg1 * 2 ^ 16 + reg2)).
Proof.
  intros Hv.
  destruct (decide (uint16 reg1 /\ uint16 reg2)) as [[H1 H2]|Hn].
  - rewrite registersToFloat32_spec in Hv by assumption.
    injection Hv as <-. auto.
  - now rewrite registersToFloat32_throws in Hv.
Qed.

Lemma pattern_range (reg1 reg2 : Z) :
  uint16 reg1 -> uint16 reg2 ->
  0 <= reg1 * 2 ^ 16 + reg2 < 2 ^ 32
  /\ (reg1 * 2 ^ 16 + reg2) / 2 ^ 16 = reg1
  /\ (reg1 * 2 ^ 16 + reg2) mod 2 ^ 16 = reg2.
Proof.
  unfold uint16. intros H1 H2.
  change (2 ^ 16) with 65536. change (2 ^ 32) with 4294967296.
  Z.div_mod_to_equations. lia.
Qed.

(** Encoding what two cells decode to gives the two cells back, unless
    they hold a NaN. *)
Lemma float32ToRegisters_of_decoded (reg1 reg2 : Z) (v : float) :
  registersToFloat32 reg1 reg2 = Some v -> is_nan v = false ->
  float32ToRegisters v = Some (reg1, reg2).
Proof.
  intros (H1 & H2 & ->)%registersToFloat32_Some_inv Hnan.
  destruct (pattern_range _ _ H1 H2) as (Hb & Hhi & Hlo).
  set (b := reg1 * 2 ^ 16 + reg2) in *.
  pose proof (B32Exact.of_bits_valid b Hb) as Hvalid.
  rewrite float32ToRegisters_spec, B32Exact.of_double_to_double by assumption.
  rewrite B32Exact.bits_of_bits; [now rewrite Hhi, Hlo|assumption|].
  destruct (B32.of_bits b); try reflexivity. discriminate Hnan.
Qed.

(** X1.  Encoding never fails: every number, NaN and the infinities
    included, is turned into two cells between 0 and 65535. *)
Theorem X1_encoding_yields_two_cells (value : float) :
  exists reg1 reg2,
    float32ToRegisters value = Some (reg1, reg2)
    /\ uint16 reg1 /\ uint16 reg2.
Proof.
  rewrite float32ToRegisters_spec. do 2 eexists. split; [reflexivity|].
  apply halves_uint16, B32Facts.bits_range, B32Facts.of_double_valid.
Qed.


(** X3.  Cells to number to cells: when two cells decode to a number that
    is not NaN, encoding that number returns the same two cells. *)
Theorem X3_encode_after_decode (reg1 reg2 : Z) (v : float) :
  registersToFloat32 reg1 reg2 = Some v -> is_nan v = false ->
  float32ToRegisters v = Some (reg1, reg2).
Proof. apply float32ToRegisters_of_decoded. Qed.

Lemma X3_encode_after_decode_witness :
  registersToFloat32 16457 4048 = Some (fround Lit.f3_14159)
  /\ is_nan (fround Lit.f3_14159) = false
  /\ float32ToRegisters (fround Lit.f3_14159) = Some (16457, 4048).
Proof.
  assert (Hv : registersToFloat32 16457 4048 = Some (fround Lit.f3_14159))
    by (vm_compute; reflexivity).
  assert (Hn : is_nan (fround Lit.f3_14159) = false) by reflexivity.
  split; [exact Hv|]. split; [exact Hn|].
  exact (X3_encode_after_decode 16457 4048 _ Hv Hn).
Defined.

(** X4.  Writing a number at two cells inside the array and reading it
    back there gives the number narrowed to float32; the length and every
    other cell stay as they were. *)
Theorem X4_set_then_get_float (startAddr : nat) (value : float)
    (regs : list Z) :
  (startAddr + 1 < length regs)%nat ->
  exists regs',
    setFloat32Value startAddr value regs = Some regs'
    /\ length regs' = length regs
    /\ getFloat32Value startAddr regs' = Some (fround value)
    /\ forall i, i <> startAddr -> i <> (startAddr + 1)%nat ->
                 regs' !! i = regs !! i.
Proof.
  intros Hlen.
  destruct (setFloat32Value startAddr value regs) as [regs'|] eqn:E;
    [|now rewrite setFloat32Value_spec in E].
  exists regs'. split; [reflexivity|].
  split; [eapply setFloat32Value_length; eassumption|].
  split; [eapply setFloat32Value_get; eassumption|].
  intros i H0 H1. rewrite setFloat32Value_spec in E. injection E as <-.
  now rewrite !list_lookup_insert_ne by congruence.
Qed.

Lemma X4_set_then_get_float_witness :
  (998 + 1 < length (holdingRegisters started_state))%nat
  /\ exists regs',
       setFloat32Value 998 Lit.f3_14159 (holdingRegisters started_state)
       = Some regs'
       /\ getFloat32Value 998 regs' = Some (fround Lit.f3_14159)
       /\ regs' !! 0%nat = Some 16608.
Proof.
  assert (Hlen : (998 + 1 < length (holdingRegisters started_state))%nat)
    by (cbn; lia).
  split; [exact Hlen|].
  destruct (X4_set_then_get_float 998 Lit.f3_14159 _ Hlen)
    as (regs' & Hs & _ & Hg & Hf).
  exists regs'. split; [exact Hs|]. split; [exact Hg|].
  rewrite Hf by lia. reflexivity.
Defined.

(** ** More about start-up and the periodic task *)

(** The three writes of a publication, on the register array. *)
Lemma write_three_floats (a b c : float) (regs regs' : list Z) :
  (r1 ← setFloat32Value 0 a regs; r2 ← setFloat32Value 2 b r1;
   setFloat32Value 4 c r2) = Some regs' ->
  length regs' = length regs
  /\ (forall i, (6 <= i)%nat -> regs' !! i = regs !! i)
  /\ ((6 <= length regs)%nat ->
      getFloat32Value 0 regs' = Some (fround a)
      /\ getFloat32Value 2 regs' = Some (fround b)
      /\ getFloat32Value 4 regs' = Some (fround c))
  /\ ((2 <= length regs)%nat ->
      float32ToRegisters a
      = (r0 ← regs' !! 0%nat; r1 ← regs' !! 1%nat; Some (r0, r1))).
Proof.
  destruct (setFloat32Value 0 a regs) as [r1|] eqn:E1; [|discriminate].
  cbn [mbind option_bind].
  destruct (setFloat32Value 2 b r1) as [r2|] eqn:E2; [|discriminate].
  cbn [mbind option_bind]. intros E3.
  pose proof (setFloat32Value_length _ _ _ _ E1) as L1.
  pose proof (setFloat32Value_length _ _ _ _ E2) as L2.
  pose proof (setFloat32Value_length _ _ _ _ E3) as L3.
  split; [congruence|]. split; [|split].
  - intros i Hi. rewrite setFloat32Value_spec in E1, E2, E3.
    injection E1 as <-. injection E2 as <-. injection E3 as <-.
    now rewrite !list_lookup_insert_ne by lia.
  - intros Hlen. repeat split.
    + rewrite (setFloat32Value_get_other 4 0 _ r2 regs' ltac:(lia) E3).
      rewrite (setFloat32Value_get_other 2 0 _ r1 r2 ltac:(lia) E2).
      apply (setFloat32Value_get 0 _ regs); [lia|assumption].
    + rewrite (setFloat32Value_get_other 4 2 _ r2 regs' ltac:(lia) E3).
      apply (setFloat32Value_get 2 _ r1); [lia|assumption].
    + apply (setFloat32Value_get 4 _ r2); [lia|assumption].
  - intros Hlen. rewrite setFloat32Value_spec in E1, E2, E3.
    injection E1 as <-. injection E2 as <-. injection E3 as <-.
    rewrite float32ToRegisters_spec.
    rewrite !(list_lookup_insert_ne _ _ 0%nat) by lia.
    rewrite list_lookup_insert_eq by lia. cbn [mbind option_bind].
    rewrite !(list_lookup_insert_ne _ _ 1%nat) by lia.
    rewrite list_lookup_insert_eq by (rewrite length_insert; lia).
    reflexivity.
Qed.

Lemma write_three_floats_runs (a b c : float) (regs : list Z) :
  exists regs',
    (r1 ← setFloat32Value 0 a regs; r2 ← setFloat32Value 2 b r1;
     setFloat32Value 4 c r2) = Some regs'.
Proof.
  rewrite setFloat32Value_spec. cbn [mbind option_bind].
  rewrite setFloat32Value_spec. cbn [mbind option_bind].
  rewrite setFloat32Value_spec. eauto.
Qed.

Lemma publish_inv (st st' : State) :
  publish st = Some st' ->
  exists regs',
    (r1 ← setFloat32Value 0 (leavingTempSettings (chillerData st))
            (holdingRegisters st);
     r2 ← setFloat32Value 2 (enteringTemp (chillerData st)) r1;
     setFloat32Value 4 (leavingTemp (chillerData st)) r2) = Some regs'
    /\ st' = mkState regs' (coils st) (chillerData st)
               (console st
                ++ [LogPublished (leavingTempSettings (chillerData st))
                      (enteringTemp (chillerData st))
                      (leavingTemp (chillerData st))]).
Proof.
  unfold publish. cbv zeta.
  destruct (setFloat32Value 0 _ (holdingRegisters st)) as [r1|]; [|discriminate].
  cbn [mbind option_bind].
  destruct (setFloat32Value 2 _ r1) as [r2|]; [|discriminate].
  cbn [mbind option_bind].
  destruct (setFloat32Value 4 _ r2) as [r3|]; [|discriminate].
  cbn [mbind option_bind]. intros [= <-]. exists r3. split; reflexivity.
Qed.

(** X5.  Start-up writes the three process values into registers 0-5
    (given at least six cells): afterwards they decode to the values
    narrowed to float32, every cell from 6 on is as before, and coils,
    process values and console are untouched. *)
Theorem X5_start_up_writes_defaults (st : State) :
  (6 <= length (holdingRegisters st))%nat ->
  exists st',
    initializeDefaultValues st = Some st'
    /\ coils st' = coils st /\ chillerData st' = chillerData st
    /\ console st' = console st
    /\ length (holdingRegisters st') = length (holdingRegisters st)
    /\ getFloat32Value 0 (holdingRegisters st')
       = Some (fround (leavingTempSettings (chillerData st)))
    /\ getFloat32Value 2 (holdingRegisters st')
       = Some (fround (enteringTemp (chillerData st)))
    /\ getFloat32Value 4 (holdingRegisters st')
       = Some (fround (leavingTemp (chillerData st)))
    /\ forall i, (6 <= i)%nat ->
                 holdingRegisters st' !! i = holdingRegisters st !! i.
Proof.
  intros Hlen. unfold initializeDefaultValues.
  destruct (write_three_floats_runs
              (leavingTempSettings (chillerData st))
              (enteringTemp (chillerData st)) (leavingTemp (chillerData st))
              (holdingRegisters st)) as [regs' Hw].
  destruct (write_three_floats _ _ _ _ _ Hw) as (Hl & Hf & Hg & _).
  destruct (Hg Hlen) as (G0 & G2 & G4).
  destruct (setFloat32Value 0 _ (holdingRegisters st)) as [r1|];
    [|discriminate]. cbn [mbind option_bind] in Hw |- *.
  destruct (setFloat32Value 2 _ r1) as [r2|]; [|discriminate].
  cbn [mbind option_bind] in Hw |- *. rewrite Hw. cbn [mbind option_bind].
  eexists. split; [reflexivity|].
  cbn [holdingRegisters coils chillerData console with_registers].
  repeat split; assumption.
Qed.

Lemma X5_start_up_writes_defaults_witness :
  (6 <= length (holdingRegisters module_state))%nat
  /\ exists st',
       initializeDefaultValues module_state = Some st'
       /\ getFloat32Value 0 (holdingRegisters st') = Some Lit.f7_0
       /\ getFloat32Value 2 (holdingRegisters st') = Some Lit.f12_0
       /\ getFloat32Value 4 (holdingRegisters st') = Some Lit.f7_5
       /\ holdingRegisters st' !! 6%nat = Some 0.
Proof.
  assert (Hlen : (6 <= length (holdingRegisters module_state))%nat)
    by (cbn; lia).
  split; [exact Hlen|].
  destruct (X5_start_up_writes_defaults module_state Hlen)
    as (st' & Hi & _ & _ & _ & _ & G0 & G2 & G4 & Hf).
  exists st'. split; [exact Hi|].
  rewrite G0, G2, G4, Hf by lia. repeat split.
Defined.

Section TickMore.

Variable Math_sin : float -> float.

(** A tick that returns, taken apart. *)
Lemma tick_inv (now : Z) (st st' : State) :
  tick Math_sin now st = Some st' ->
  exists v regs',
    getFloat32Value 0 (holdingRegisters st) = Some v
    /\ chillerData st'
       = chillerData
           (let st2 := adopt_setting v
                         (if truthy (coils st !! 301)
                          then reset_values st else st) in
            if truthy (coils st !! 302) then simulate Math_sin now st2
            else st2)
    /\ coils st'
       = (if truthy (coils st !! 301) then <[301 := false]> (coils st)
          else coils st)
    /\ console st'
       = console st
         ++ (if truthy (coils st !! 301) then [LogResetRequested] else [])
         ++ [if truthy (coils st !! 300)
             then LogPublished (leavingTempSettings (chillerData st'))
                    (enteringTemp (chillerData st'))
                    (leavingTemp (chillerData st'))
             else LogPaused]
    /\ holdingRegisters st'
       = (if truthy (coils st !! 300) then regs' else holdingRegisters st)
    /\ (r1 ← setFloat32Value 0 (leavingTempSettings (chillerData st'))
               (holdingRegisters st);
        r2 ← setFloat32Value 2 (enteringTemp (chillerData st')) r1;
        setFloat32Value 4 (leavingTemp (chillerData st')) r2) = Some regs'.
Proof.
  unfold tick. cbv zeta.
  set (st1 := if truthy (coils st !! 301) then reset_values st else st).
  assert (H1 : holdingRegisters st1 = holdingRegisters st
               /\ coils st1
                  = (if truthy (coils st !! 301)
                     then <[301 := false]> (coils st) else coils st)
               /\ console st1
                  = console st
                    ++ (if truthy (coils st !! 301)
                        then [LogResetRequested] else [])).
  { subst st1. destruct (truthy (coils st !! 301)); cbn.
    - auto.
    - now rewrite app_nil_r. }
  destruct H1 as (H1r & H1c & H1l). rewrite H1r.
  destruct (getFloat32Value 0 (holdingRegisters st)) as [v|]; [|discriminate].
  cbn [mbind option_bind].
  destruct (adopt_setting_frame v st1) as (H2r & H2c & H2l & _).
  set (st2 := adopt_setting v st1) in *.
  set (st3 := if truthy (coils st !! 302) then simulate Math_sin now st2
              else st2).
  assert (H3 : holdingRegisters st3 = holdingRegisters st
               /\ coils st3 = coils st1 /\ console st3 = console st1).
  { subst st3. destruct (truthy (coils st !! 302)); cbn; rewrite <- ?H1r; auto. }
  destruct H3 as (H3r & H3c & H3l).
  destruct (truthy (coils st !! 300)).
  - intros (regs' & Hw & ->)%publish_inv. exists v, regs'.
    cbn [chillerData coils console holdingRegisters].
    rewrite H3r in Hw. rewrite H3c, H3l, H1c, H1l, <- app_assoc.
    repeat split; assumption.
  - intros [= <-].
    destruct (write_three_floats_runs
                (leavingTempSettings (chillerData st3))
                (enteringTemp (chillerData st3))
                (leavingTemp (chillerData st3)) (holdingRegisters st))
      as [regs' Hw].
    exists v, regs'.
    cbn [chillerData coils console holdingRegisters console_log].
    rewrite H3r, H3c, H3l, H1c, H1l, <- app_assoc.
    repeat split; assumption.
Qed.

Lemma getFloat32Value_Some_inv (startAddr : nat) (regs : list Z) (v : float) :
  getFloat32Value startAddr regs = Some v ->
  exists reg1 reg2,
    regs !! startAddr = Some reg1 /\ regs !! (startAddr + 1)%nat = Some reg2
    /\ registersToFloat32 reg1 reg2 = Some v.
Proof.
  unfold getFloat32Value.
  destruct (regs !! startAddr) as [reg1|]; [|discriminate].
  cbn [mbind option_bind].
  destruct (regs !! (startAddr + 1)%nat) as [reg2|]; [|discriminate].
  cbn [mbind option_bind]. eauto.
Qed.

(** What the decoder returns is a float32 value. *)
Lemma fround_decoded (reg1 reg2 : Z) (v : float) :
  registersToFloat32 reg1 reg2 = Some v -> fround v = v.
Proof.
  intros (H1 & H2 & ->)%registersToFloat32_Some_inv.
  destruct (pattern_range _ _ H1 H2) as (Hb & _).
  unfold fround.
  now rewrite B32Exact.of_double_to_double by now apply B32Exact.of_bits_valid.
Qed.

Lemma in_range_not_nan (v : float) :
  B64.ltb Lit.f0 v && B64.ltb v Lit.f30 = true -> is_nan v = false.
Proof. now destruct v. Qed.

(** X6.  A tick with coil 300 true, on an array of at least six cells,
    leaves in registers 0-1, 2-3 and 4-5 the float32 patterns of the
    setting, the entering and the leaving temperature it ends with: they
    decode to these values narrowed to float32. *)
Theorem X6_tick_publishes_its_values (now : Z) (st st' : State) :
  truthy (coils st !! 300) = true ->
  (6 <= length (holdingRegisters st))%nat ->
  tick Math_sin now st = Some st' ->
  getFloat32Value 0 (holdingRegisters st')
  = Some (fround (leavingTempSettings (chillerData st')))
  /\ getFloat32Value 2 (holdingRegisters st')
     = Some (fround (enteringTemp (chillerData st')))
  /\ getFloat32Value 4 (holdingRegisters st')
     = Some (fround (leavingTemp (chillerData st'))).
Proof.
  intros H300 Hlen Ht.
  destruct (tick_inv now st st' Ht) as (v & regs' & _ & _ & _ & _ & Hr & Hw).
  rewrite H300 in Hr. rewrite Hr.
  destruct (write_three_floats _ _ _ _ _ Hw) as (_ & _ & Hg & _). now apply Hg.
Qed.


(** X8.  In every state the program reaches, the register array has 1000
    cells, each between 0 and 65535, and the timer callback runs to its
    end without an exception, at any time. *)
Theorem X8_the_timer_callback_never_throws (st : State) :
  reachable Math_sin st ->
  wf_registers (holdingRegisters st)
  /\ forall now, exists st', tick Math_sin now st = Some st'.
Proof.
  intros Hr. pose proof (reachable_wf Math_sin st Hr) as Hwf.
  split; [exact Hwf|]. intros now.
  destruct (tick_total Math_sin now st Hwf) as (st' & Ht & _). eauto.
Qed.


Lemma tick_setting_is_float32 (now : Z) (st st' : State) :
  setting_is_float32 st -> tick Math_sin now st = Some st' ->
  setting_is_float32 st'.
Proof.
  intros Hin Ht.
  destruct (tick_inv now st st' Ht) as (v & _ & Hv & Hd & _).
  unfold setting_is_float32. rewrite Hd. cbv zeta.
  assert (Hs : forall s, leavingTempSettings
                 (chillerData (if truthy (coils st !! 302)
                               then simulate Math_sin now s else s))
               = leavingTempSettings (chillerData s))
    by (intros s; now destruct (truthy (coils st !! 302))).
  rewrite Hs. unfold adopt_setting.
  destruct (B64.ltb Lit.f0 v && B64.ltb v Lit.f30).
  - cbn [chillerData with_chillerData leavingTempSettings].
    destruct (getFloat32Value_Some_inv _ _ _ Hv) as (r1 & r2 & _ & _ & Hd').
    eapply fround_decoded; eassumption.
  - destruct (truthy (coils st !! 301)); [reflexivity|exact Hin].
Qed.

Lemma reachable_setting_is_float32 (st : State) :
  reachable Math_sin st -> setting_is_float32 st.
Proof.
  induction 1 as [st0 H0|st st' _ IH Hstep].
  - rewrite started_state_init in H0. injection H0 as <-. reflexivity.
  - destruct Hstep as [now st st' Ht|addr st|addr unitID st|addr value st Hv
                      |addr st|addr value st].
    + eapply tick_setting_is_float32; eassumption.
    + exact IH.
    + unfold getHoldingRegister. now destruct (decide _).
    + unfold setRegister. now destruct (decide _).
    + unfold getCoil. now destruct (decide _).
    + unfold setCoil. now destruct (decide _).
Qed.

(** X10.  In every state the program reaches, the setting is a float32
    value: narrowing it changes nothing.  So a publication loses no
    precision on the setting: after a tick with coil 300 true, registers
    0-1 decode to the setting itself. *)
Theorem X10_setting_is_published_exactly (now : Z) (st st' : State) :
  reachable Math_sin st ->
  fround (leavingTempSettings (chillerData st))
  = leavingTempSettings (chillerData st)
  /\ (truthy (coils st !! 300) = true ->
      tick Math_sin now st = Some st' ->
      getFloat32Value 0 (holdingRegisters st')
      = Some (leavingTempSettings (chillerData st'))).
Proof.
  intros Hr. split; [now apply reachable_setting_is_float32|].
  intros H300 Ht.
  assert (Hr' : reachable Math_sin st')
    by (eapply reachable_step; [exact Hr|exact (step_tick _ _ _ _ Ht)]).
  apply reachable_setting_is_float32 in Hr'. unfold setting_is_float32 in Hr'.
  destruct (tick_inv now st st' Ht) as (v & regs' & _ & _ & _ & _ & Hreg & Hw).
  rewrite H300 in Hreg. rewrite Hreg.
  destruct (write_three_floats _ _ _ _ _ Hw) as (_ & _ & Hg & _).
  destruct (reachable_wf Math_sin st Hr) as [Hlen _].
  destruct Hg as (-> & _); [lia|]. now rewrite Hr'.
Qed.

(** X11.  A setting written by a client survives the publication bit for
    bit: when registers 0 and 1 hold cells that decode to a number inside
    (0, 30) and coil 300 is true, the tick takes the number over as the
    setting and leaves the same two cells in registers 0 and 1. *)
Theorem X11_client_setting_cells_survive (now : Z) (st : State)
    (reg1 reg2 : Z) (v : float) :
  holdingRegisters st !! 0%nat = Some reg1 ->
  holdingRegisters st !! 1%nat = Some reg2 ->
  registersToFloat32 reg1 reg2 = Some v ->
  B64.ltb Lit.f0 v && B64.ltb v Lit.f30 = true ->
  truthy (coils st !! 300) = true ->
  exists st',
    tick Math_sin now st = Some st'
    /\ leavingTempSettings (chillerData st') = v
    /\ holdingRegisters st' !! 0%nat = Some reg1
    /\ holdingRegisters st' !! 1%nat = Some reg2.
Proof.
  intros H0 H1 Hd Hg H300.
  assert (Hv : getFloat32Value 0 (holdingRegisters st) = Some v).
  { unfold getFloat32Value. cbn [Nat.add]. now rewrite H0, H1. }
  assert (H2 := after_ingestion_spec st). rewrite Hv in H2.
  cbn [mbind option_bind] in H2.
  destruct (tick_spec Math_sin now st _ H2) as (st' & Ht & _).
  exists st'. split; [exact Ht|].
  destruct (tick_inv now st st' Ht) as (v' & regs' & Hv' & Hc & _ & _ & Hr & Hw).
  rewrite Hv in Hv'. injection Hv' as <-.
  assert (Hs : leavingTempSettings (chillerData st') = v).
  { rewrite Hc. cbv zeta.
    assert (Hsim : forall s, leavingTempSettings
                     (chillerData (if truthy (coils st !! 302)
                                   then simulate Math_sin now s else s))
                   = leavingTempSettings (chillerData s))
      by (intros s; now destruct (truthy (coils st !! 302))).
    rewrite Hsim. unfold adopt_setting. now rewrite Hg. }
  split; [exact Hs|].
  rewrite H300 in Hr. rewrite Hr, Hs in *.
  destruct (write_three_floats _ _ _ _ _ Hw) as (_ & _ & _ & He).
  rewrite (float32ToRegisters_of_decoded reg1 reg2 v Hd
             (in_range_not_nan v Hg)) in He.
  apply lookup_lt_Some in H1.
  specialize (He ltac:(lia)).
  destruct (regs' !! 0%nat) as [c0|]; [|discriminate].
  destruct (regs' !! 1%nat) as [c1|]; [|discriminate].
  cbn [mbind option_bind] in He. now injection He as <- <-.
Qed.

(** Once the distance is zero the step adds nothing. *)
Lemma approach_fixed_point (x : float) :
  B64.ltb Lit.f0 x && B64.ltb x Lit.f30 = true ->
  B64.add x (B64.mul (B64.sub x x) Lit.f0_1) = x.
Proof.
  destruct x as [s|[]| |[] m e]; try discriminate. intros _.
  assert (Hsub : B64.sub (S754_finite false m e) (S754_finite false m e)
                 = S754_zero false).
  { unfold B64.sub. cbn [SFsub]. rewrite Z.min_id.
    unfold shl_align. rewrite Z.sub_diag. cbn [fst cond_Zopp].
    reflexivity. }
  rewrite Hsub. reflexivity.
Qed.

(** X12.  When the leaving temperature equals a setting inside (0, 30),
    a tick keeps it there, with the simulation on or off. *)
Theorem X12_leaving_temperature_rests_at_the_setting (now : Z)
    (st st2 : State) :
  after_ingestion st = Some st2 ->
  setting_in_range st2 ->
  leavingTemp (chillerData st2) = leavingTempSettings (chillerData st2) ->
  exists st',
    tick Math_sin now st = Some st'
    /\ leavingTemp (chillerData st') = leavingTempSettings (chillerData st2)
    /\ leavingTempSettings (chillerData st')
       = leavingTempSettings (chillerData st2).
Proof.
  intros H2 Hin Heq.
  destruct (tick_spec Math_sin now st st2 H2) as (st' & Ht & Hd & _).
  exists st'. split; [exact Ht|]. rewrite Hd.
  destruct (truthy (coils st !! 302)); [|auto].
  unfold simulate. cbn [chillerData with_chillerData leavingTemp
                        leavingTempSettings].
  rewrite Heq. split; [|reflexivity]. now apply approach_fixed_point.
Qed.

(** X13.  A tick appends to the console and rewrites nothing: one line
    for the reset when coil 301 was true, then the summary of the values
    it ends with when coil 300 was true, else the line for the pause. *)
Theorem X13_tick_console (now : Z) (st st' : State) :
  tick Math_sin now st = Some st' ->
  console st'
  = console st
    ++ (if truthy (coils st !! 301) then [LogResetRequested] else [])
    ++ [if truthy (coils st !! 300)
        then LogPublished (leavingTempSettings (chillerData st'))
               (enteringTemp (chillerData st')) (leavingTemp (chillerData st'))
        else LogPaused].
Proof.
  intros Ht. now destruct (tick_inv now st st' Ht) as (v & regs' & _ & _ & _ & Hl & _).
Qed.

(** X16.  The coil object never gains or loses a key: in every state the
    program reaches it holds a boolean at 300, 301 and 302 and nothing
    anywhere else, so a read of a coil never yields [undefined]. *)
Theorem X16_coil_keys_are_fixed (st : State) (addr : Z) :
  reachable Math_sin st ->
  is_Some (coils st !! addr) <-> 300 <= addr <= 302.
Proof.
  intros Hr. revert addr.
  induction Hr as [st0 H0|st st' _ IH Hstep]; intros addr.
  - rewrite started_state_init in H0. injection H0 as <-.
    cbn [coils started_state with_registers module_state].
    destruct (decide (addr = 300)) as [->|N0]; [now rewrite lookup_insert_eq|].
    rewrite lookup_insert_ne by congruence.
    destruct (decide (addr = 301)) as [->|N1]; [now rewrite lookup_insert_eq|].
    rewrite lookup_insert_ne by congruence.
    destruct (decide (addr = 302)) as [->|N2];
      [now rewrite lookup_singleton_eq|].
    rewrite lookup_singleton_ne by congruence.
    split; [intros [? [=]]|lia].
  - assert (Hins : forall a (b : bool), 300 <= a <= 302 ->
              is_Some (<[a := b]> (coils st) !! addr) <-> 300 <= addr <= 302).
    { intros a b Ha. destruct (decide (a = addr)) as [->|Hne].
      - rewrite lookup_insert_eq. split; [now intros _|eauto].
      - rewrite lookup_insert_ne by assumption. apply IH. }
    destruct Hstep as [now st st' Ht|a st|a unitID st|a value st Hv
                      |a st|a value st].
    + destruct (tick_inv now st st' Ht) as (v & regs' & _ & _ & -> & _).
      destruct (truthy (coils st !! 301)); [apply Hins; lia|apply IH].
    + apply IH.
    + unfold getHoldingRegister. destruct (decide _); apply IH.
    + unfold setRegister. destruct (decide _); apply IH.
    + unfold getCoil. destruct (decide _); apply IH.
    + unfold setCoil. destruct (decide _) as [Ha|]; [|apply IH].
      cbn [coils console_log with_coils]. now apply Hins.
Qed.

Lemma setRegister_in_range (addr value : Z) (st : State) :
  0 <= addr < Z.of_nat (length (holdingRegisters st)) ->
  setRegister addr value st
  = console_log (LogRegisterSet addr value)
      (with_registers (<[Z.to_nat addr := value]> (holdingRegisters st)) st).
Proof. intros Ha. unfold setRegister. now rewrite decide_True. Qed.

(** X17.  From a client write to the next tick: after the server has
    stored two 16-bit cells in registers 0 and 1, the tick ends with the
    number they decode to as the setting when that number is inside
    (0, 30), and otherwise with 7.0 after a reset or with the previous
    setting. *)
Theorem X17_written_setting_is_adopted (now : Z) (st : State)
    (cell0 cell1 : Z) (v : float) :
  (2 <= length (holdingRegisters st))%nat ->
  registersToFloat32 cell0 cell1 = Some v ->
  exists st',
    tick Math_sin now (setRegister 1 cell1 (setRegister 0 cell0 st)) = Some st'
    /\ leavingTempSettings (chillerData st')
       = if B64.ltb Lit.f0 v && B64.ltb v Lit.f30 then v
         else if truthy (coils st !! 301) then Lit.f7_0
              else leavingTempSettings (chillerData st).
Proof.
  intros Hlen Hd.
  set (st1 := setRegister 1 cell1 (setRegister 0 cell0 st)).
  assert (H1 : holdingRegisters st1
               = <[1%nat := cell1]> (<[0%nat := cell0]> (holdingRegisters st))
               /\ coils st1 = coils st /\ chillerData st1 = chillerData st).
  { subst st1. rewrite (setRegister_in_range 0 cell0 st) by lia.
    rewrite setRegister_in_range
      by (cbn [holdingRegisters console_log with_registers];
          rewrite length_insert; lia).
    cbn [holdingRegisters coils chillerData console_log with_registers].
    auto. }
  destruct H1 as (H1r & H1c & H1d).
  assert (Hv : getFloat32Value 0 (holdingRegisters st1) = Some v).
  { assert (L0 : holdingRegisters st1 !! 0%nat = Some cell0).
    { rewrite H1r, list_lookup_insert_ne by lia.
      apply list_lookup_insert_eq. lia. }
    assert (L1 : holdingRegisters st1 !! 1%nat = Some cell1).
    { rewrite H1r. apply list_lookup_insert_eq. rewrite length_insert. lia. }
    unfold getFloat32Value. cbn [Nat.add]. rewrite L0. cbn [mbind option_bind].
    rewrite L1. exact Hd. }
  assert (H2 := after_ingestion_spec st1). rewrite Hv in H2.
  cbn [mbind option_bind] in H2.
  destruct (tick_spec Math_sin now st1 _ H2) as (st' & Ht & Hc & _).
  exists st'. split; [exact Ht|]. rewrite Hc, H1c.
  assert (Hsim : forall s, leavingTempSettings
                   (chillerData (if truthy (coils st !! 302)
                                 then simulate Math_sin now s else s))
                 = leavingTempSettings (chillerData s))
    by (intros s; now destruct (truthy (coils st !! 302))).
  rewrite Hsim. unfold adopt_setting.
  destruct (B64.ltb Lit.f0 v && B64.ltb v Lit.f30); [reflexivity|].
  destruct (truthy (coils st !! 301)); [reflexivity|]. now rewrite H1d.
Qed.

End TickMore.

(** X14.  A register write changes one cell at most: a read at any other
    address returns what it returned before, the array keeps its length,
    and coils and process values are untouched. *)
Theorem X14_setRegister_frame (addr value other unitID : Z) (st : State) :
  other <> addr ->
  (getHoldingRegister other unitID (setRegister addr value st)).1
  = (getHoldingRegister other unitID st).1
  /\ length (holdingRegisters (setRegister addr value st))
     = length (holdingRegisters st)
  /\ coils (setRegister addr value st) = coils st
  /\ chillerData (setRegister addr value st) = chillerData st.
Proof.
  intros Hne. unfold setRegister.
  destruct (decide (0 <= addr < Z.of_nat (length (holdingRegisters st))))
    as [Ha|Ha].
  2:{ repeat split. unfold getHoldingRegister.
      cbn [holdingRegisters console_log]. now destruct (decide _). }
  unfold getHoldingRegister.
  cbn [holdingRegisters coils chillerData console_log with_registers].
  rewrite length_insert. split; [|auto].
  destruct (decide (0 <= other < Z.of_nat (length (holdingRegisters st))));
    [|reflexivity].
  cbn [fst]. now rewrite list_lookup_insert_ne by lia.
Qed.

Lemma X14_setRegister_frame_witness :
  0 <> 1
  /\ (getHoldingRegister 0 1 (setRegister 1 4660 started_state)).1 = 16608
  /\ coils (setRegister 1 4660 started_state) = coils started_state.
Proof.
  assert (Hne : 0 <> 1) by lia.
  destruct (X14_setRegister_frame 1 4660 0 1 started_state Hne)
    as (Hr & _ & Hc & _).
  split; [exact Hne|]. split; [rewrite Hr; reflexivity|exact Hc].
Defined.

(** X15.  A coil write changes one coil at most: a read of any other coil
    returns what it returned before, and registers and process values are
    untouched. *)
Theorem X15_setCoil_frame (addr other : Z) (value : bool) (st : State) :
  other <> addr ->
  (getCoil other (setCoil addr value st)).1 = (getCoil other st).1
  /\ holdingRegisters (setCoil addr value st) = holdingRegisters st
  /\ chillerData (setCoil addr value st) = chillerData st.
Proof.
  intros Hne. unfold setCoil.
  destruct (decide (300 <= addr <= 302)) as [Ha|Ha].
  2:{ repeat split. unfold getCoil. cbn [coils console_log].
      now destruct (decide _). }
  unfold getCoil.
  cbn [holdingRegisters coils chillerData console_log with_coils].
  split; [|auto].
  destruct (decide (300 <= other <= 302)); [|reflexivity].
  cbn [fst]. now rewrite lookup_insert_ne by congruence.
Qed.

Lemma X15_setCoil_frame_witness :
  302 <> 300
  /\ (getCoil 302 (setCoil 300 false started_state)).1 = true
  /\ holdingRegisters (setCoil 300 false started_state)
     = holdingRegisters started_state.
Proof.
  assert (Hne : 302 <> 300) by lia.
  destruct (X15_setCoil_frame 300 302 false started_state Hne)
    as (Hr & Hh & _).
  split; [exact Hne|]. split; [rewrite Hr; reflexivity|exact Hh].
Defined.

(** ** The further properties at concrete states *)

Lemma X6_tick_publishes_its_values_witness :
  truthy (coils started_state !! 300) = true
  /\ (6 <= length (holdingRegisters started_state))%nat
  /\ forall Math_sin,
       exists st',
         tick Math_sin example_now started_state = Some st'
         /\ getFloat32Value 0 (holdingRegisters st')
            = Some (fround (leavingTempSettings (chillerData st')))
         /\ getFloat32Value 4 (holdingRegisters st')
            = Some (fround (leavingTemp (chillerData st'))).
Proof.
  assert (H300 : truthy (coils started_state !! 300) = true)
    by (vm_compute; reflexivity).
  assert (Hlen : (6 <= length (holdingRegisters started_state))%nat)
    by (cbn; lia).
  split; [exact H300|]. split; [exact Hlen|]. intros Math_sin.
  destruct (tick_total Math_sin example_now started_state started_state_wf)
    as (st' & Ht & _).
  destruct (X6_tick_publishes_its_values Math_sin example_now _ _ H300 Hlen Ht)
    as (G0 & _ & G4).
  exists st'. split; [exact Ht|]. split; assumption.
Defined.


Lemma X8_the_timer_callback_never_throws_witness :
  initializeDefaultValues module_state = Some started_state
  /\ forall Math_sin,
       exists st',
         tick Math_sin example_now (setRegister 0 65535 started_state)
         = Some st'.
Proof.
  split; [exact started_state_init|]. intros Math_sin.
  assert (Hr : reachable Math_sin (setRegister 0 65535 started_state)).
  { eapply reachable_step.
    - apply reachable_init. exact started_state_init.
    - apply step_setRegister. unfold uint16. lia. }
  exact (proj2 (X8_the_timer_callback_never_throws Math_sin _ Hr) example_now).
Defined.

Lemma X10_setting_is_published_exactly_witness :
  initializeDefaultValues module_state = Some started_state
  /\ forall Math_sin,
       exists st',
         tick Math_sin example_now started_state = Some st'
         /\ getFloat32Value 0 (holdingRegisters st')
            = Some (leavingTempSettings (chillerData st')).
Proof.
  split; [exact started_state_init|]. intros Math_sin.
  destruct (tick_total Math_sin example_now started_state started_state_wf)
    as (st' & Ht & _).
  assert (Hr : reachable Math_sin started_state)
    by (apply reachable_init; exact started_state_init).
  destruct (X10_setting_is_published_exactly Math_sin example_now _ st' Hr)
    as (_ & Hp).
  exists st'. split; [exact Ht|]. apply Hp; [vm_compute; reflexivity|exact Ht].
Defined.

Lemma X11_client_setting_cells_survive_witness :
  holdingRegisters setting_written_state !! 0%nat = Some 16752
  /\ holdingRegisters setting_written_state !! 1%nat = Some 0
  /\ registersToFloat32 16752 0 = Some Lit.f15_0
  /\ B64.ltb Lit.f0 Lit.f15_0 && B64.ltb Lit.f15_0 Lit.f30 = true
  /\ truthy (coils setting_written_state !! 300) = true
  /\ forall Math_sin,
       exists st',
         tick Math_sin example_now setting_written_state = Some st'
         /\ leavingTempSettings (chillerData st') = Lit.f15_0
         /\ holdingRegisters st' !! 0%nat = Some 16752
         /\ holdingRegisters st' !! 1%nat = Some 0.
Proof.
  assert (H0 : holdingRegisters setting_written_state !! 0%nat = Some 16752)
    by reflexivity.
  assert (H1 : holdingRegisters setting_written_state !! 1%nat = Some 0)
    by reflexivity.
  assert (Hd : registersToFloat32 16752 0 = Some Lit.f15_0)
    by (vm_compute; reflexivity).
  assert (Hg : B64.ltb Lit.f0 Lit.f15_0 && B64.ltb Lit.f15_0 Lit.f30 = true)
    by reflexivity.
  assert (H300 : truthy (coils setting_written_state !! 300) = true)
    by (vm_compute; reflexivity).
  repeat (split; [assumption|]). intros Math_sin.
  exact (X11_client_setting_cells_survive Math_sin example_now _ _ _ _
           H0 H1 Hd Hg H300).
Defined.

Lemma X12_leaving_temperature_rests_at_the_setting_witness :
  after_ingestion settled_state = Some settled_state
  /\ setting_in_range settled_state
  /\ leavingTemp (chillerData settled_state)
     = leavingTempSettings (chillerData settled_state)
  /\ truthy (coils settled_state !! 302) = true
  /\ forall Math_sin,
       exists st',
         tick Math_sin example_now settled_state = Some st'
         /\ leavingTemp (chillerData st') = Lit.f7_0.
Proof.
  assert (H2 : after_ingestion settled_state = Some settled_state)
    by (vm_compute; reflexivity).
  assert (Hin : setting_in_range settled_state) by reflexivity.
  assert (Heq : leavingTemp (chillerData settled_state)
                = leavingTempSettings (chillerData settled_state))
    by reflexivity.
  split; [exact H2|]. split; [exact Hin|]. split; [exact Heq|].
  split; [vm_compute; reflexivity|]. intros Math_sin.
  destruct (X12_leaving_temperature_rests_at_the_setting Math_sin example_now
              _ _ H2 Hin Heq) as (st' & Ht & Hl & _).
  exists st'. split; [exact Ht|]. rewrite Hl. reflexivity.
Defined.

Lemma reset_requested_state_wf :
  wf_registers (holdingRegisters reset_requested_state).
Proof.
  split; [reflexivity|].
  unfold reset_requested_state, setting_written_state, setCoil, setRegister.
  rewrite !decide_True by (cbn; lia).
  cbn [holdingRegisters console_log with_registers with_coils].
  destruct started_state_wf as [_ Hall].
  do 2 (apply Forall_insert; [|unfold uint16; lia]). exact Hall.
Qed.

Lemma X13_tick_console_witness :
  wf_registers (holdingRegisters reset_requested_state)
  /\ forall Math_sin,
       exists st' line,
         tick Math_sin example_now reset_requested_state = Some st'
         /\ console st'
            = console reset_requested_state ++ [LogResetRequested; line].
Proof.
  split; [exact reset_requested_state_wf|]. intros Math_sin.
  destruct (tick_total Math_sin example_now _ reset_requested_state_wf)
    as (st' & Ht & _).
  pose proof (X13_tick_console Math_sin example_now _ _ Ht) as Hl.
  exists st'. eexists. split; [exact Ht|]. rewrite Hl.
  change (truthy (coils reset_requested_state !! 301)) with true.
  change (truthy (coils reset_requested_state !! 300)) with true.
  reflexivity.
Defined.

Lemma X16_coil_keys_are_fixed_witness :
  initializeDefaultValues module_state = Some started_state
  /\ forall Math_sin,
       reachable Math_sin (setCoil 301 true started_state)
       /\ is_Some (coils (setCoil 301 true started_state) !! 301)
       /\ ~ is_Some (coils (setCoil 301 true started_state) !! 303).
Proof.
  split; [exact started_state_init|]. intros Math_sin.
  assert (Hr : reachable Math_sin (setCoil 301 true started_state)).
  { eapply reachable_step.
    - apply reachable_init. exact started_state_init.
    - apply step_setCoil. }
  split; [exact Hr|]. split.
  - apply (X16_coil_keys_are_fixed Math_sin _ 301 Hr). lia.
  - intros Hs. apply (X16_coil_keys_are_fixed Math_sin _ 303 Hr) in Hs. lia.
Defined.

Lemma X17_written_setting_is_adopted_witness :
  (2 <= length (holdingRegisters started_state))%nat
  /\ registersToFloat32 16752 0 = Some Lit.f15_0
  /\ forall Math_sin,
       exists st',
         tick Math_sin example_now
           (setRegister 1 0 (setRegister 0 16752 started_state)) = Some st'
         /\ leavingTempSettings (chillerData st') = Lit.f15_0.
Proof.
  assert (Hlen : (2 <= length (holdingRegisters started_state))%nat)
    by (cbn; lia).
  assert (Hd : registersToFloat32 16752 0 = Some Lit.f15_0)
    by (vm_compute; reflexivity).
  split; [exact Hlen|]. split; [exact Hd|]. intros Math_sin.
  destruct (X17_written_setting_is_adopted Math_sin example_now started_state
              16752 0 Lit.f15_0 Hlen Hd) as (st' & Ht & Hs).
  exists st'. split; [exact Ht|]. rewrite Hs. reflexivity.
Defined.

(** ** Published registers over several ticks *)

(** On an array of at least six cells the three writes replace the first
    six cells and keep the rest. *)
Lemma write_three_floats_cells (a b c : float) (regs : list Z) :
  (6 <= length regs)%nat ->
  (r1 ← setFloat32Value 0 a regs; r2 ← setFloat32Value 2 b r1;
   setFloat32Value 4 c r2)
  = Some ([B32.bits (B32.of_double a) / 2 ^ 16;
           B32.bits (B32.of_double a) mod 2 ^ 16;
           B32.bits (B32.of_double b) / 2 ^ 16;
           B32.bits (B32.of_double b) mod 2 ^ 16;
           B32.bits (B32.of_double c) / 2 ^ 16;
           B32.bits (B32.of_double c) mod 2 ^ 16] ++ drop 6 regs).
Proof.
  intros Hlen.
  destruct regs as [|x0 [|x1 [|x2 [|x3 [|x4 [|x5 tl]]]]]];
    try (cbn in Hlen; lia).
  rewrite setFloat32Value_spec. cbn [mbind option_bind].
  rewrite setFloat32Value_spec. cbn [mbind option_bind].
  rewrite setFloat32Value_spec. reflexivity.
Qed.

Lemma write_three_floats_again (a b c : float) (regs regs' : list Z) :
  (6 <= length regs)%nat ->
  (r1 ← setFloat32Value 0 a regs; r2 ← setFloat32Value 2 b r1;
   setFloat32Value 4 c r2) = Some regs' ->
  (r1 ← setFloat32Value 0 a regs'; r2 ← setFloat32Value 2 b r1;
   setFloat32Value 4 c r2) = Some regs'.
Proof.
  intros Hlen Hw. rewrite write_three_floats_cells in Hw by assumption.
  injection Hw as <-.
  rewrite write_three_floats_cells by (cbn [length app]; lia).
  reflexivity.
Qed.

Section SeveralTicks.

Variable Math_sin : float -> float.

(** After a tick coil 301 reads false, and the other coils read as
    before. *)
Lemma tick_coils_after (now : Z) (st st' : State) :
  tick Math_sin now st = Some st' ->
  truthy (coils st' !! 301) = false
  /\ truthy (coils st' !! 300) = truthy (coils st !! 300)
  /\ truthy (coils st' !! 302) = truthy (coils st !! 302).
Proof.
  intros Ht.
  destruct (tick_inv Math_sin now st st' Ht) as (v & regs' & _ & _ & -> & _).
  destruct (truthy (coils st !! 301)) eqn:H301.
  - rewrite lookup_insert_eq, !lookup_insert_ne by lia. auto.
  - auto.
Qed.

(** X18.  With the simulation off and publishing on, one tick brings the
    program to rest: a second tick, at any later time and with no client
    write in between, leaves the process values, the coils and the whole
    register array as the first tick left them. *)
Theorem X18_rest_without_simulation (now1 now2 : Z) (st st1 st2 : State) :
  reachable Math_sin st ->
  truthy (coils st !! 300) = true ->
  truthy (coils st !! 302) = false ->
  tick Math_sin now1 st = Some st1 ->
  tick Math_sin now2 st1 = Some st2 ->
  chillerData st2 = chillerData st1
  /\ coils st2 = coils st1
  /\ holdingRegisters st2 = holdingRegisters st1.
Proof.
  intros Hr H300 H302 Ht1 Ht2.
  assert (Hr1 : reachable Math_sin st1)
    by (eapply reachable_step; [exact Hr|exact (step_tick _ _ _ _ Ht1)]).
  pose proof (reachable_setting_is_float32 Math_sin st1 Hr1) as Hf32.
  pose proof (reachable_setting_in_range Math_sin st1 Hr1) as Hin.
  destruct (reachable_wf Math_sin st Hr) as [Hlen _].
  destruct (tick_coils_after now1 st st1 Ht1) as (C301 & C300 & C302).
  rewrite H300 in C300. rewrite H302 in C302.
  destruct (tick_inv Math_sin now1 st st1 Ht1)
    as (v1 & regs1 & _ & _ & _ & _ & Hreg1 & Hw1).
  rewrite H300 in Hreg1.
  destruct (tick_inv Math_sin now2 st1 st2 Ht2)
    as (v2 & regs2 & Hv2 & Hd2 & Hc2 & _ & Hreg2 & Hw2).
  rewrite C301 in Hc2. rewrite C300 in Hreg2.
  rewrite C301, C302 in Hd2. cbv zeta in Hd2.
  assert (Hread : getFloat32Value 0 (holdingRegisters st1)
                  = Some (leavingTempSettings (chillerData st1))).
  { rewrite Hreg1. destruct (write_three_floats _ _ _ _ _ Hw1) as (_ & _ & Hg & _).
    destruct Hg as (-> & _); [lia|]. now rewrite Hf32. }
  rewrite Hread in Hv2. injection Hv2 as <-.
  assert (Hd : chillerData st2 = chillerData st1).
  { rewrite Hd2. unfold adopt_setting. unfold setting_in_range in Hin.
    rewrite Hin. cbn [chillerData with_chillerData].
    now destruct (chillerData st1). }
  split; [exact Hd|]. split; [exact Hc2|].
  rewrite Hreg2, Hreg1. rewrite Hd, Hreg1 in Hw2.
  rewrite (write_three_floats_again _ _ _ (holdingRegisters st) regs1
             ltac:(lia) Hw1) in Hw2.
  now injection Hw2.
Qed.

(** X19.  What a client reads back in registers 0-1 after a tick with
    coil 300 true, in any state the program reaches: the number [v] it
    had written there when that is inside (0, 30), and otherwise the
    setting in force, 7.0 after a reset; a rejected write is overwritten. *)
Theorem X19_setting_read_back (now : Z) (st st' : State) (v : float) :
  reachable Math_sin st ->
  truthy (coils st !! 300) = true ->
  getFloat32Value 0 (holdingRegisters st) = Some v ->
  tick Math_sin now st = Some st' ->
  getFloat32Value 0 (holdingRegisters st')
  = Some (if B64.ltb Lit.f0 v && B64.ltb v Lit.f30 then v
          else if truthy (coils st !! 301) then Lit.f7_0
               else leavingTempSettings (chillerData st)).
Proof.
  intros Hr H300 Hv Ht.
  assert (Hr' : reachable Math_sin st')
    by (eapply reachable_step; [exact Hr|exact (step_tick _ _ _ _ Ht)]).
  pose proof (reachable_setting_is_float32 Math_sin st' Hr') as Hf32.
  destruct (reachable_wf Math_sin st Hr) as [Hlen _].
  destruct (tick_inv Math_sin now st st' Ht)
    as (v' & regs' & Hv' & Hd & _ & _ & Hreg & Hw).
  rewrite Hv in Hv'. injection Hv' as <-. rewrite H300 in Hreg.
  rewrite Hreg. destruct (write_three_floats _ _ _ _ _ Hw) as (_ & _ & Hg & _).
  destruct Hg as (-> & _); [lia|]. rewrite Hf32. f_equal.
  rewrite Hd. cbv zeta.
  assert (Hsim : forall s, leavingTempSettings
                   (chillerData (if truthy (coils st !! 302)
                                 then simulate Math_sin now s else s))
                 = leavingTempSettings (chillerData s))
    by (intros s; now destruct (truthy (coils st !! 302))).
  rewrite Hsim. unfold adopt_setting.
  destruct (B64.ltb Lit.f0 v && B64.ltb v Lit.f30); [reflexivity|].
  now destruct (truthy (coils st !! 301)).
Qed.

End SeveralTicks.

Lemma X18_rest_without_simulation_witness :
  initializeDefaultValues module_state = Some started_state
  /\ forall Math_sin,
       exists st1 st2,
         tick Math_sin example_now (setCoil 302 false started_state) = Some st1
         /\ tick Math_sin (example_now + 2000) st1 = Some st2
         /\ chillerData st2 = chillerData st1
         /\ holdingRegisters st2 = holdingRegisters st1.
Proof.
  split; [exact started_state_init|]. intros Math_sin.
  assert (Hr : reachable Math_sin (setCoil 302 false started_state)).
  { eapply reachable_step.
    - apply reachable_init. exact started_state_init.
    - apply step_setCoil. }
  destruct (reachable_tick_runs Math_sin example_now _ Hr) as [st1 Ht1].
  assert (Hr1 : reachable Math_sin st1)
    by (eapply reachable_step; [exact Hr|exact (step_tick _ _ _ _ Ht1)]).
  destruct (reachable_tick_runs Math_sin (example_now + 2000) _ Hr1)
    as [st2 Ht2].
  assert (H300 : truthy (coils (setCoil 302 false started_state) !! 300) = true)
    by (vm_compute; reflexivity).
  assert (H302 : truthy (coils (setCoil 302 false started_state) !! 302)
                 = false) by (vm_compute; reflexivity).
  destruct (X18_rest_without_simulation Math_sin _ _ _ _ _ Hr H300 H302 Ht1 Ht2)
    as (Hd & _ & Hreg).
  exists st1, st2. repeat split; assumption.
Defined.

Lemma X19_setting_read_back_witness :
  initializeDefaultValues module_state = Some started_state
  /\ truthy (coils (setRegister 0 0 started_state) !! 300) = true
  /\ getFloat32Value 0 (holdingRegisters (setRegister 0 0 started_state))
     = Some (S754_zero false)
  /\ forall Math_sin,
       exists st',
         tick Math_sin example_now (setRegister 0 0 started_state) = Some st'
         /\ getFloat32Value 0 (holdingRegisters st') = Some Lit.f7_0.
Proof.
  assert (H300 : truthy (coils (setRegister 0 0 started_state) !! 300) = true)
    by (vm_compute; reflexivity).
  assert (Hv : getFloat32Value 0
                 (holdingRegisters (setRegister 0 0 started_state))
               = Some (S754_zero false)) by (vm_compute; reflexivity).
  split; [exact started_state_init|]. split; [exact H300|].
  split; [exact Hv|]. intros Math_sin.
  assert (Hr : reachable Math_sin (setRegister 0 0 started_state)).
  { eapply reachable_step.
    - apply reachable_init. exact started_state_init.
    - apply step_setRegister. unfold uint16. lia. }
  destruct (reachable_tick_runs Math_sin example_now _ Hr) as [st' Ht].
  exists st'. split; [exact Ht|].
  rewrite (X19_setting_read_back Math_sin _ _ _ _ Hr H300 Hv Ht).
  reflexivity.
Defined.

(** X20.  In every state the program reaches, a read of a holding
    register returns an integer between 0 and 65535, at every address,
    valid or not, and leaves the state as it is. *)
Theorem X20_register_reads_are_16_bit (Math_sin : float -> float)
    (addr unitID : Z) (st : State) :
  reachable Math_sin st ->
  uint16 (getHoldingRegister addr unitID st).1
  /\ (getHoldingRegister addr unitID st).2 = st.
Proof.
  intros Hr. destruct (reachable_wf Math_sin st Hr) as [Hlen Hall].
  unfold getHoldingRegister.
  destruct (decide _) as [Ha|Ha]; cbn [fst snd];
    [|split; [unfold uint16; lia|reflexivity]].
  split; [|reflexivity].
  destruct (lookup_lt_is_Some_2 (holdingRegisters st) (Z.to_nat addr))
    as [cell Hcell]; [lia|].
  rewrite Hcell. cbn [default].
  rewrite Forall_lookup in Hall. exact (Hall _ _ Hcell).
Qed.

Lemma X20_register_reads_are_16_bit_witness :
  initializeDefaultValues module_state = Some started_state
  /\ forall Math_sin,
       exists st',
         tick Math_sin example_now started_state = Some st'
         /\ uint16 (getHoldingRegister 4 1 st').1
         /\ uint16 (getHoldingRegister 70000 1 st').1.
Proof.
  split; [exact started_state_init|]. intros Math_sin.
  assert (Hr : reachable Math_sin started_state)
    by (apply reachable_init; exact started_state_init).
  destruct (reachable_tick_runs Math_sin example_now _ Hr) as [st' Ht].
  assert (Hr' : reachable Math_sin st')
    by (eapply reachable_step; [exact Hr|exact (step_tick _ _ _ _ Ht)]).
  exists st'. split; [exact Ht|]. split.
  - exact (proj1 (X20_register_reads_are_16_bit Math_sin 4 1 st' Hr')).
  - exact (proj1 (X20_register_reads_are_16_bit Math_sin 70000 1 st' Hr')).
Defined.
